(** * Archimedes: reference resolution and transfer of Kibana objects

    A shallow embedding of [archimedes/archimedes.py].  Python values that
    come out of JSON documents are modelled by the inductive type [json];
    exceptions by the type [error]; the helpers of [archimedes.utils] and the
    Kibana client are collaborators whose behaviour is left open (they are
    section variables), so that every theorem holds whatever the file tree
    and the remote store answer.

    Text is modelled as ASCII strings: [lower] folds the letters A-Z only. *)

From Stdlib Require Import String Ascii List Bool ZArith Lia DecimalString.
Import ListNotations.
Open Scope string_scope.

Set Implicit Arguments.
Set Warnings "-register-all".

(** ** Python values and exceptions *)

Inductive json : Type :=
| JNull
| JBool (b : bool)
| JNum (z : Z)
| JStr (s : string)
| JArr (items : list json)
| JObj (fields : list (string * json)).

(** The exceptions the module raises itself, the built-in ones its
    expressions can raise, and whatever a collaborator raises. *)
Inductive error : Type :=
| FileTypeError (file_type : string)      (* "File type %s not known" *)
| ObjectTypeError (panel_type : json)     (* "Panel type %s not handled" *)
| ExportError                             (* "Object id and title cannot be null" *)
| KeyError (key : string)
| IndexError
| TypeError
| ExternalError (what : string).

Inductive result (A : Type) : Type :=
| Ok (a : A)
| Err (e : error).

Arguments Ok {A} a.
Arguments Err {A} e.

Definition bind {A B : Type} (r : result A) (k : A -> result B) : result B :=
  match r with
  | Ok a => k a
  | Err e => Err e
  end.

Declare Scope result_scope.
Delimit Scope result_scope with result.
Notation "x <- r ;; k" := (bind r (fun x => k))
  (at level 100, r at next level, right associativity) : result_scope.
Open Scope result_scope.

(** [bool(v)]: the truth value Python gives to a value. *)
Definition truthy (v : json) : bool :=
  match v with
  | JNull => false
  | JBool b => b
  | JNum z => negb (Z.eqb z 0)
  | JStr s => negb (String.eqb s "")
  | JArr items => match items with [] => false | _ => true end
  | JObj fields => match fields with [] => false | _ => true end
  end.

(** [v == s] for a string literal [s]: only a string equals a string. *)
Definition eq_str (v : json) (s : string) : bool :=
  match v with
  | JStr t => String.eqb t s
  | _ => false
  end.

Fixpoint lookup (k : string) (fields : list (string * json)) : option json :=
  match fields with
  | [] => None
  | (k', v) :: rest => if String.eqb k k' then Some v else lookup k rest
  end.

Fixpoint is_prefix (p s : string) : bool :=
  match p, s with
  | EmptyString, _ => true
  | String a p', String b s' => Ascii.eqb a b && is_prefix p' s'
  | String _ _, EmptyString => false
  end.

Fixpoint is_substring (p s : string) : bool :=
  is_prefix p s ||
  match s with
  | EmptyString => false
  | String _ s' => is_substring p s'
  end.

(** [k in v] for a string literal [k]: key membership on a dict, element
    membership on a list, substring test on a string, [TypeError] on the
    values that are not containers. *)
Definition py_in (k : string) (v : json) : result bool :=
  match v with
  | JObj fields => Ok (match lookup k fields with Some _ => true | None => false end)
  | JArr items => Ok (existsb (fun x => eq_str x k) items)
  | JStr s => Ok (is_substring k s)
  | _ => Err TypeError
  end.

(** [v[k]] for a string literal [k]. *)
Definition py_getitem (v : json) (k : string) : result json :=
  match v with
  | JObj fields =>
      match lookup k fields with
      | Some x => Ok x
      | None => Err (KeyError k)
      end
  | _ => Err TypeError
  end.

Fixpoint chars (s : string) : list json :=
  match s with
  | EmptyString => []
  | String c s' => JStr (String c EmptyString) :: chars s'
  end.

(** The values a [for] loop (or a comprehension) takes over [v]. *)
Definition py_iter (v : json) : result (list json) :=
  match v with
  | JArr items => Ok items
  | JObj fields => Ok (map (fun kv => JStr (fst kv)) fields)
  | JStr s => Ok (chars s)
  | _ => Err TypeError
  end.

(** [str.lower()] on ASCII text: the letters A-Z are folded and nothing else
    changes.  On other text Python folds more (every cased character, and
    the capital sigma by its context); [get_file_name_in] below leaves that
    open. *)
Definition lower_ascii (c : ascii) : ascii :=
  let n := nat_of_ascii c in
  if (65 <=? n)%nat && (n <=? 90)%nat then ascii_of_nat (n + 32) else c.

Fixpoint lower (s : string) : string :=
  match s with
  | EmptyString => EmptyString
  | String c s' => String (lower_ascii c) (lower s')
  end.

(** ** Constants *)

(** Modelled from the spec: the type names that [archimedes.clients.dashboard]
    exports as [DASHBOARD], [INDEX_PATTERN], [SEARCH] and [VISUALIZATION];
    the spec lists them as dashboard, index-pattern, search and
    visualization. *)
Definition DASHBOARD : string := "dashboard".
Definition INDEX_PATTERN : string := "index-pattern".
Definition SEARCH : string := "search".
Definition VISUALIZATION : string := "visualization".

Definition VISUALIZATIONS_FOLDER : string := "visualizations".
Definition INDEX_PATTERNS_FOLDER : string := "index-patterns".
Definition SEARCHES_FOLDER : string := "searches".

Definition JSON_EXT : string := ".json".

(** ** File names *)

(** [get_file_name] on two strings of ASCII text, where [str.lower] is
    [lower]. *)
Definition get_file_name (obj_type obj_id : string) : string :=
  let name := obj_type ++ "_" ++ obj_id ++ JSON_EXT in
  lower name.

(** [get_file_name] on the values the callers hand it: [+] between a string
    and anything but a string raises [TypeError]. *)
Definition get_file_name_py (obj_type obj_id : json) : result string :=
  match obj_type, obj_id with
  | JStr t, JStr i => Ok (get_file_name t i)
  | _, _ => Err TypeError
  end.

(** ** Reference resolver *)

(** A folder argument is [None] or a string; [if not folder] holds for
    [None] and for the empty string. *)
Definition folder_given (folder : option string) : bool :=
  match folder with
  | Some f => negb (String.eqb f "")
  | None => false
  end.

(** [if p not in files: files.append(p)]. *)
Definition append_new (files : list string) (p : string) : list string :=
  if existsb (String.eqb p) files then files else (files ++ [p])%list.

(** [[files.append(p) for p in new_files if p not in files]]: the test reads
    the list as it grows. *)
Definition extend_new (files new_files : list string) : list string :=
  fold_left append_new new_files files.

(** What deduplication "preserving first-seen order" means, said without
    the loop: of every path the first occurrence is kept. *)
Definition keep_first (l : list string) : list string :=
  rev (nodup string_dec (rev l)).

Section Resolver.

(** [json.loads] on a string, [load_json] and [find_file] of
    [archimedes.utils]: collaborators, left open. *)
Variable json_loads : string -> result json.
Variable load_json : string -> result json.
Variable find_file : option string -> string -> result string.

Definition json_loads_py (v : json) : result json :=
  match v with
  | JStr s => json_loads s
  | _ => Err TypeError
  end.

Definition __find_index_pattern (obj : json) : result json :=
  attributes <- py_getitem obj "attributes" ;;
  has_meta <- py_in "kibanaSavedObjectMeta" attributes ;;
  if has_meta then
    meta <- py_getitem attributes "kibanaSavedObjectMeta" ;;
    has_source <- py_in "searchSourceJSON" meta ;;
    if has_source then
      source <- py_getitem meta "searchSourceJSON" ;;
      search_content <- json_loads_py source ;;
      has_index <- py_in "index" search_content ;;
      if negb has_index then Ok JNull
      else py_getitem search_content "index"
    else Ok JNull
  else Ok JNull.

Definition _find_search_files (search_path : string)
    (index_patterns_folder : option string) : result (list string) :=
  search_content <- load_json search_path ;;
  index_pattern_id <- __find_index_pattern search_content ;;
  if negb (truthy index_pattern_id) then Ok [search_path]
  else
    name <- get_file_name_py (JStr INDEX_PATTERN) index_pattern_id ;;
    ip_path <- find_file index_patterns_folder name ;;
    Ok (append_new [] ip_path ++ [search_path])%list.

Definition _find_visualization_files (visualization_path : string)
    (searches_folder index_patterns_folder : option string)
    : result (list string) :=
  vis_content <- load_json visualization_path ;;
  attributes <- py_getitem vis_content "attributes" ;;
  has_search <- py_in "savedSearchId" attributes ;;
  visualization_files <-
    (if has_search && folder_given searches_folder then
       search_id <- py_getitem attributes "savedSearchId" ;;
       name <- get_file_name_py (JStr SEARCH) search_id ;;
       search_path <- find_file searches_folder name ;;
       Ok (append_new [] search_path)
     else Ok []) ;;
  search_files <- _find_search_files visualization_path index_patterns_folder ;;
  Ok (extend_new visualization_files search_files).

(** The body of the loop of [_find_dashboard_files] up to the list
    comprehension: the files of one panel. *)
Definition panel_files (visualizations_folder searches_folder
    index_patterns_folder : option string) (panel : json)
    : result (list string) :=
  panel_type <- py_getitem panel "type" ;;
  if eq_str panel_type VISUALIZATION then
    panel_id <- py_getitem panel "id" ;;
    name <- get_file_name_py (JStr VISUALIZATION) panel_id ;;
    panel_path <- find_file visualizations_folder name ;;
    _find_visualization_files panel_path searches_folder index_patterns_folder
  else if eq_str panel_type SEARCH then
    panel_id <- py_getitem panel "id" ;;
    name <- get_file_name_py (JStr SEARCH) panel_id ;;
    panel_path <- find_file searches_folder name ;;
    _find_search_files panel_path index_patterns_folder
  else Err (ObjectTypeError panel_type).

(** [for panel in panels: ...], threading [dashboard_files]. *)
Fixpoint panels_loop (visualizations_folder searches_folder
    index_patterns_folder : option string) (panels : list json)
    (dashboard_files : list string) : result (list string) :=
  match panels with
  | [] => Ok dashboard_files
  | panel :: rest =>
      files <- panel_files visualizations_folder searches_folder
                 index_patterns_folder panel ;;
      panels_loop visualizations_folder searches_folder
        index_patterns_folder rest (extend_new dashboard_files files)
  end.

(** [json.loads(dash_content['attributes']['panelsJSON'])], as the
    sequence the loop runs over. *)
Definition dashboard_panels (dash_content : json) : result (list json) :=
  attributes <- py_getitem dash_content "attributes" ;;
  panels_json <- py_getitem attributes "panelsJSON" ;;
  panels <- json_loads_py panels_json ;;
  py_iter panels.

Definition _find_dashboard_files (dashboard_path : string)
    (visualizations_folder searches_folder index_patterns_folder
     : option string) : result (list string) :=
  dash_content <- load_json dashboard_path ;;
  if negb (folder_given visualizations_folder) then Ok ([] ++ [dashboard_path])%list
  else
    panels <- dashboard_panels dash_content ;;
    dashboard_files <- panels_loop visualizations_folder searches_folder
                         index_patterns_folder panels [] ;;
    Ok (dashboard_files ++ [dashboard_path])%list.

End Resolver.

(** ** Paths *)

(** [s.split(sep)] for a one-character separator. *)
Fixpoint split_on (sep : ascii) (s : string) : list string :=
  match s with
  | EmptyString => [EmptyString]
  | String c rest =>
      if Ascii.eqb c sep then EmptyString :: split_on sep rest
      else match split_on sep rest with
           | head :: tail => String c head :: tail
           | [] => [String c EmptyString]
           end
  end.

(** [Path(p).name] on a POSIX path: the last component that is neither
    empty nor ["."], the empty string when there is none. *)
Definition path_name (p : string) : string :=
  last (filter (fun c => negb (String.eqb c "") && negb (String.eqb c "."))
          (split_on "/" p)) "".

Fixpoint ends_with_slash (s : string) : bool :=
  match s with
  | EmptyString => false
  | String c EmptyString => Ascii.eqb c "/"
  | String _ rest => ends_with_slash rest
  end.

(** [os.path.join(a, b)] on POSIX. *)
Definition path_join (a b : string) : string :=
  if is_prefix "/" b then b
  else if String.eqb a "" || ends_with_slash a then a ++ b
  else a ++ "/" ++ b.

(** [Path(file_path).name.split("_")[0].lower()]. *)
Definition file_type_of (file_path : string) : string :=
  lower (hd "" (split_on "_" (path_name file_path))).

(** ** Transfer orchestrator *)

(** The calls made to the remote store and the writes made to the file
    tree, in the order they are made. *)
Inductive event : Type :=
| EvExportById (obj_type obj_id : string)
| EvExportByTitle (obj_type obj_title : string)
| EvFindById (obj_type : string) (obj_id : json)
| EvImportObjects (objects : json) (force : bool)
| EvMakeDirs (path : string)
| EvSaveToFile (doc : json) (path : string) (force : bool).

Section Orchestrator.

(** The state of everything outside the program: the file tree and the
    remote store. *)
Variable St : Type.

Record world : Type := World { state : St; log : list event }.

Definition M (A : Type) : Type := world -> result A * world.

Definition ret {A : Type} (a : A) : M A := fun w => (Ok a, w).

Definition raise {A : Type} (e : error) : M A := fun w => (Err e, w).

Definition bindM {A B : Type} (m : M A) (k : A -> M B) : M B :=
  fun w =>
    match m w with
    | (Ok a, w') => k a w'
    | (Err e, w') => (Err e, w')
    end.

Definition lift {A : Type} (r : result A) : M A := fun w => (r, w).

(** A call to a collaborator: it is logged and run on the state. *)
Definition call {A : Type} (e : event) (op : St -> result A * St) : M A :=
  fun w =>
    let (r, s) := op (state w) in
    (r, {| state := s; log := (log w ++ [e])%list |}).

(** Something read from the state, which stays as it is. *)
Definition reading {A : Type} (f : St -> result A) : M A :=
  fun w => (f (state w), w).

Declare Scope io_scope.
Delimit Scope io_scope with io.
Notation "x <- m ;; k" := (bindM m (fun x => k))
  (at level 100, m at next level, right associativity) : io_scope.
Notation "m ;; k" := (bindM m (fun _ => k))
  (at level 100, right associativity) : io_scope.

(** The collaborators: [json.loads]; [load_json], [find_file] and
    [save_to_file] of [archimedes.utils]; [os.makedirs(_, exist_ok=True)];
    the methods of the [Kibana] client. *)
Variable json_loads : string -> result json.
Variable load_json : St -> string -> result json.
Variable find_file : St -> option string -> string -> result string.
Variable save_to_file : json -> string -> bool -> St -> result unit * St.
Variable makedirs : string -> St -> result unit * St.
Variable export_by_id : string -> string -> St -> result json * St.
Variable export_by_title : string -> string -> St -> result json * St.
Variable find_by_id : string -> json -> St -> result json * St.
Variable import_objects : json -> bool -> St -> result unit * St.

Definition get_folder_path (root_path : string) (obj_type : json)
    : M string :=
  (let name :=
     if eq_str obj_type VISUALIZATION then VISUALIZATIONS_FOLDER
     else if eq_str obj_type INDEX_PATTERN then INDEX_PATTERNS_FOLDER
     else if eq_str obj_type SEARCH then SEARCHES_FOLDER
     else "" in
   let folder_path :=
     if negb (String.eqb name "") then path_join root_path name
     else root_path in
   call (EvMakeDirs folder_path) (makedirs folder_path) ;;
   ret folder_path)%io.

(** The log of a computation only grows. *)
Definition log_grows {A : Type} (m : M A) : Prop :=
  forall w, exists tail, log (snd (m w)) = (log w ++ tail)%list.

Definition __import_file (file_path : string) (force : bool) : M unit :=
  (json_content <- reading (fun s => load_json s file_path) ;;
   if negb (truthy json_content) then ret tt
   else
     has_objects <- lift (py_in "objects" json_content) ;;
     let objects :=
       if negb has_objects then JObj [("objects", JArr [json_content])]
       else json_content in
     call (EvImportObjects objects force) (import_objects objects force))%io.

Fixpoint __import_files (file_paths : list string) (force : bool) : M unit :=
  match file_paths with
  | [] => ret tt
  | f :: rest => (__import_file f force ;; __import_files rest force)%io
  end.

Definition import_from_file (file_path : string) (find : bool)
    (visualizations_folder searches_folder index_patterns_folder
     : option string) (force : bool) : M unit :=
  (json_content <- reading (fun s => load_json s file_path) ;;
   if negb (truthy json_content) then ret tt
   else if negb find then __import_file file_path force
   else
     let file_type := file_type_of file_path in
     files <-
       (if String.eqb file_type DASHBOARD then
          reading (fun s =>
            _find_dashboard_files json_loads (load_json s) (find_file s)
              file_path visualizations_folder searches_folder
              index_patterns_folder)
        else if String.eqb file_type VISUALIZATION then
          reading (fun s =>
            _find_visualization_files json_loads (load_json s)
              (find_file s) file_path searches_folder index_patterns_folder)
        else if String.eqb file_type SEARCH then
          reading (fun s =>
            _find_search_files json_loads (load_json s) (find_file s)
              file_path index_patterns_folder)
        else raise (FileTypeError file_type)) ;;
     __import_files files force)%io.

(** [[obj for obj in items if obj['type'] == 'dashboard']]. *)
Fixpoint dashboards_in (items : list json) : result (list json) :=
  match items with
  | [] => Ok []
  | obj :: rest =>
      obj_type <- py_getitem obj "type" ;;
      others <- dashboards_in rest ;;
      Ok (if eq_str obj_type "dashboard" then obj :: others else others)
  end.

(** The first half of the loop body of [__export_objects]: the object
    goes to the folder of its type. *)
Definition save_object (folder_path : string) (force : bool) (obj : json)
    : M unit :=
  (obj_type <- lift (py_getitem obj "type") ;;
   folder <- get_folder_path folder_path obj_type ;;
   obj_id <- lift (py_getitem obj "id") ;;
   name <- lift (get_file_name_py obj_type obj_id) ;;
   let file_path := path_join folder name in
   call (EvSaveToFile obj file_path force) (save_to_file obj file_path force))%io.

(** The second half, under [if index_pattern:]. *)
Definition save_index_pattern_of (folder_path : string) (force : bool)
    (obj : json) : M unit :=
  (index_pattern_id <- lift (__find_index_pattern json_loads obj) ;;
   index_pattern_obj <-
     call (EvFindById INDEX_PATTERN index_pattern_id)
       (find_by_id INDEX_PATTERN index_pattern_id) ;;
   folder <- get_folder_path folder_path (JStr INDEX_PATTERN) ;;
   name <- lift (get_file_name_py (JStr INDEX_PATTERN) index_pattern_id) ;;
   let file_path := path_join folder name in
   call (EvSaveToFile index_pattern_obj file_path force)
     (save_to_file index_pattern_obj file_path force))%io.

Definition export_object (folder_path : string) (force index_pattern : bool)
    (obj : json) : M unit :=
  (save_object folder_path force obj ;;
   if index_pattern then save_index_pattern_of folder_path force obj
   else ret tt)%io.

(** [for obj in objs: ...]. *)
Fixpoint export_loop (folder_path : string) (force index_pattern : bool)
    (objs : list json) : M unit :=
  match objs with
  | [] => ret tt
  | obj :: rest =>
      (export_object folder_path force index_pattern obj ;;
       export_loop folder_path force index_pattern rest)%io
  end.

Definition __export_objects (data : json) (obj_type folder_path : string)
    (one_file force index_pattern : bool) : M unit :=
  (if one_file && String.eqb obj_type DASHBOARD then
     objects <- lift (py_getitem data "objects") ;;
     items <- lift (py_iter objects) ;;
     dashboards <- lift (dashboards_in items) ;;
     dash <- lift (match dashboards with
                   | d :: _ => Ok d
                   | [] => Err IndexError
                   end) ;;
     dash_type <- lift (py_getitem dash "type") ;;
     dash_id <- lift (py_getitem dash "id") ;;
     name <- lift (get_file_name_py dash_type dash_id) ;;
     let file_path := path_join folder_path name in
     call (EvSaveToFile data file_path force) (save_to_file data file_path force)
   else
     has_objects <- lift (py_in "objects" data) ;;
     objs <- lift (if negb has_objects then Ok [data]
                   else (objects <- py_getitem data "objects" ;;
                         py_iter objects)%result) ;;
     export_loop folder_path force index_pattern objs)%io.

(** [if v:] on an optional string argument. *)
Definition given (v : option string) : option string :=
  match v with
  | Some s => if String.eqb s "" then None else Some s
  | None => None
  end.

Definition export (obj_type folder_path : string)
    (obj_id obj_title : option string)
    (one_file force index_pattern : bool) : M unit :=
  (obj <-
     match given obj_id with
     | Some id => call (EvExportById obj_type id) (export_by_id obj_type id)
     | None =>
         match given obj_title with
         | Some title =>
             call (EvExportByTitle obj_type title)
               (export_by_title obj_type title)
         | None => raise ExportError
         end
     end ;;
   __export_objects obj obj_type folder_path one_file force index_pattern)%io.

End Orchestrator.

(** ** Notions for stating what the orchestrator does and leaves alone *)

(** The kinds of events. *)
Definition is_import (e : event) : bool :=
  match e with
  | EvImportObjects _ _ => true
  | _ => false
  end.

Definition is_fetch (e : event) : bool :=
  match e with
  | EvExportById _ _ | EvExportByTitle _ _ => true
  | _ => false
  end.

Definition is_lookup (e : event) : bool :=
  match e with
  | EvFindById _ _ => true
  | _ => false
  end.

Definition is_write (e : event) : bool :=
  match e with
  | EvMakeDirs _ | EvSaveToFile _ _ _ => true
  | _ => false
  end.

(** Every event a computation adds to the log is of the kind [P]. *)
Definition log_within {St A : Type} (P : event -> bool) (m : M St A) : Prop :=
  forall w, exists tail,
    log (snd (m w)) = (log w ++ tail)%list /\ forallb P tail = true.

(** The folder of a type under an export root: [visualizations],
    [index-patterns], [searches], or the root itself. *)
Definition type_folder (root_path obj_type : string) : string :=
  if String.eqb obj_type VISUALIZATION
  then path_join root_path VISUALIZATIONS_FOLDER
  else if String.eqb obj_type INDEX_PATTERN
  then path_join root_path INDEX_PATTERNS_FOLDER
  else if String.eqb obj_type SEARCH
  then path_join root_path SEARCHES_FOLDER
  else root_path.

(** Where an object of this type and id is written. *)
Definition object_path (root_path obj_type obj_id : string) : string :=
  path_join (type_folder root_path obj_type) (get_file_name obj_type obj_id).

(** The document [__import_file] hands to the remote store. *)
Definition wrapped (json_content : json) (has_objects : bool) : json :=
  if has_objects then json_content
  else JObj [("objects", JArr [json_content])].

(** A string without the character [c]. *)
Definition free_of (c : ascii) (s : string) : Prop :=
  forall n, get n s <> Some c.

(** A path that [find_file] gave for some name in one of the folders. *)
Definition located (find_file : option string -> string -> result string)
    (folders : list (option string)) (p : string) : Prop :=
  exists folder name, In folder folders /\ find_file folder name = Ok p.

(** The events of importing one loaded document: none for an empty one. *)
Definition import_events (force : bool) (json_content : json) : list event :=
  if truthy json_content then
    match py_in "objects" json_content with
    | Ok has_objects => [EvImportObjects (wrapped json_content has_objects) force]
    | Err _ => []
    end
  else [].

(** The events of writing one object of this type and id. *)
Definition write_events (root_path : string) (force : bool)
    (entry : json * (string * string)) : list event :=
  let '(obj, (obj_type, obj_id)) := entry in
  [EvMakeDirs (type_folder root_path obj_type);
   EvSaveToFile obj (object_path root_path obj_type obj_id) force].

(** ** File names on any text *)

(** Text made of ASCII characters only. *)
Fixpoint is_ascii (s : string) : bool :=
  match s with
  | EmptyString => true
  | String c rest => (nat_of_ascii c <? 128)%nat && is_ascii rest
  end.

(** [get_file_name] on any two strings: [str_lower] stands for
    [str.lower] of Python, which on ASCII text is [lower]. *)
Definition get_file_name_in (str_lower : string -> string)
    (obj_type obj_id : string) : string :=
  let name := obj_type ++ "_" ++ obj_id ++ JSON_EXT in
  str_lower name.


(** * A file tree and a remote store to run the code on *)

Module Sample.

(** ** JSON text *)

Definition dquote : ascii := ascii_of_nat 34.
Definition backslash : ascii := ascii_of_nat 92.

Fixpoint escape (s : string) : string :=
  match s with
  | EmptyString => EmptyString
  | String c rest =>
      if Ascii.eqb c dquote || Ascii.eqb c backslash
      then String backslash (String c (escape rest))
      else String c (escape rest)
  end.

Definition quoted (s : string) : string :=
  String dquote (escape s ++ String dquote EmptyString).

(** [json.dumps], with its default separators. *)
Fixpoint dumps (v : json) : string :=
  match v with
  | JNull => "null"
  | JBool true => "true"
  | JBool false => "false"
  | JNum z => DecimalString.NilZero.string_of_int (Z.to_int z)
  | JStr s => quoted s
  | JArr items => "[" ++ String.concat ", " (map dumps items) ++ "]"
  | JObj fields =>
      "{" ++ String.concat ", "
               (map (fun kv : string * json =>
                       let (k, x) := kv in quoted k ++ ": " ++ dumps x)
                  fields) ++ "}"
  end.

Definition is_space (c : ascii) : bool :=
  let n := nat_of_ascii c in
  Nat.eqb n 32 || Nat.eqb n 9 || Nat.eqb n 10 || Nat.eqb n 13.

Fixpoint skip_spaces (s : string) : string :=
  match s with
  | EmptyString => EmptyString
  | String c rest => if is_space c then skip_spaces rest else s
  end.

(** The characters of a string literal, after its opening quote. *)
Fixpoint parse_chars (s : string) : option (string * string) :=
  match s with
  | EmptyString => None
  | String c rest =>
      if Ascii.eqb c dquote then Some (EmptyString, rest)
      else if Ascii.eqb c backslash then
        match rest with
        | String e rest' =>
            if Ascii.eqb e dquote || Ascii.eqb e backslash || Ascii.eqb e "/"
            then match parse_chars rest' with
                 | Some (t, r) => Some (String e t, r)
                 | None => None
                 end
            else None
        | EmptyString => None
        end
      else match parse_chars rest with
           | Some (t, r) => Some (String c t, r)
           | None => None
           end
  end.

Definition digit_of (c : ascii) : option Z :=
  let n := nat_of_ascii c in
  if (48 <=? n)%nat && (n <=? 57)%nat then Some (Z.of_nat (n - 48)) else None.

Fixpoint parse_digits (s : string) (acc : Z) : Z * string :=
  match s with
  | EmptyString => (acc, s)
  | String c rest =>
      match digit_of c with
      | Some d => parse_digits rest (10 * acc + d)
      | None => (acc, s)
      end
  end.

Definition parse_number (s : string) : option (json * string) :=
  match s with
  | String c rest =>
      if Ascii.eqb c "-" then
        match rest with
        | String d _ =>
            match digit_of d with
            | Some _ => let (z, r) := parse_digits rest 0 in Some (JNum (- z), r)
            | None => None
            end
        | EmptyString => None
        end
      else match digit_of c with
           | Some _ => let (z, r) := parse_digits s 0 in Some (JNum z, r)
           | None => None
           end
  | EmptyString => None
  end.

(** A later member with the same key takes the place of the earlier one. *)
Fixpoint set_field (k : string) (x : json) (fields : list (string * json))
    : list (string * json) :=
  match fields with
  | [] => [(k, x)]
  | (k', x') :: rest =>
      if String.eqb k k' then (k, x) :: rest
      else (k', x') :: set_field k x rest
  end.

Definition drop (p s : string) : option string :=
  if is_prefix p s
  then Some (substring (String.length p) (String.length s - String.length p) s)
  else None.

Fixpoint parse_value (fuel : nat) (s : string) : option (json * string) :=
  match fuel with
  | O => None
  | S fuel' =>
      match skip_spaces s with
      | EmptyString => None
      | String c rest =>
          if Ascii.eqb c dquote then
            match parse_chars rest with
            | Some (t, r) => Some (JStr t, r)
            | None => None
            end
          else if Ascii.eqb c "[" then
            match skip_spaces rest with
            | String d r =>
                if Ascii.eqb d "]" then Some (JArr [], r)
                else match parse_items fuel' rest with
                     | Some (items, r') => Some (JArr items, r')
                     | None => None
                     end
            | EmptyString => None
            end
          else if Ascii.eqb c "{" then
            match skip_spaces rest with
            | String d r =>
                if Ascii.eqb d "}" then Some (JObj [], r)
                else match parse_members fuel' rest [] with
                     | Some (fields, r') => Some (JObj fields, r')
                     | None => None
                     end
            | EmptyString => None
            end
          else
            match drop "null" (String c rest), drop "true" (String c rest),
                  drop "false" (String c rest) with
            | Some r, _, _ => Some (JNull, r)
            | _, Some r, _ => Some (JBool true, r)
            | _, _, Some r => Some (JBool false, r)
            | _, _, _ => parse_number (String c rest)
            end
      end
  end
with parse_items (fuel : nat) (s : string) : option (list json * string) :=
  match fuel with
  | O => None
  | S fuel' =>
      match parse_value fuel' s with
      | Some (x, r) =>
          match skip_spaces r with
          | String c r' =>
              if Ascii.eqb c "," then
                match parse_items fuel' r' with
                | Some (items, r'') => Some (x :: items, r'')
                | None => None
                end
              else if Ascii.eqb c "]" then Some ([x], r')
              else None
          | EmptyString => None
          end
      | None => None
      end
  end
with parse_members (fuel : nat) (s : string) (acc : list (string * json))
    : option (list (string * json) * string) :=
  match fuel with
  | O => None
  | S fuel' =>
      match skip_spaces s with
      | String q r =>
          if Ascii.eqb q dquote then
            match parse_chars r with
            | Some (k, r1) =>
                match skip_spaces r1 with
                | String colon r2 =>
                    if Ascii.eqb colon ":" then
                      match parse_value fuel' r2 with
                      | Some (x, r3) =>
                          match skip_spaces r3 with
                          | String c r4 =>
                              if Ascii.eqb c "," then
                                parse_members fuel' r4 (set_field k x acc)
                              else if Ascii.eqb c "}" then
                                Some (set_field k x acc, r4)
                              else None
                          | EmptyString => None
                          end
                      | None => None
                      end
                    else None
                | EmptyString => None
                end
            | None => None
            end
          else None
      | EmptyString => None
      end
  end.

(** [json.loads], on the part of JSON the sample documents use: objects,
    arrays, strings with the escapes of the quote, the backslash and the
    slash, integers, [true], [false] and [null]. *)
Definition loads (s : string) : result json :=
  match parse_value (2 * String.length s + 2) s with
  | Some (v, rest) =>
      match skip_spaces rest with
      | EmptyString => Ok v
      | String _ _ => Err (ExternalError "JSONDecodeError")
      end
  | None => Err (ExternalError "JSONDecodeError")
  end.

(** ** The collaborators *)

(** A file tree, and what the remote store holds and answers. *)
Record tree : Type := Tree {
  files : list (string * string);
    (* the path and the text of every file *)
  answers : list (string * string * string * json);
    (* type, id, title and payload of what the store exports *)
  saved : list json
    (* the objects the store holds *)
}.

Fixpoint text_at (path : string) (l : list (string * string)) : option string :=
  match l with
  | [] => None
  | (p, text) :: rest => if String.eqb path p then Some text else text_at path rest
  end.

(** Modelled from the spec: [load_json] of [archimedes.utils], absent from
    the sources; the spec has [load_json(path) -> parsed document or
    absent-on-empty].  A path with no file fails. *)
Definition load_json (t : tree) (path : string) : result json :=
  match text_at path (files t) with
  | Some text => if String.eqb text "" then Ok JNull else loads text
  | None => Err (ExternalError "FileNotFoundError")
  end.

(** Modelled from the spec: [find_file] of [archimedes.utils], absent from
    the sources; the spec has [find_file(folder, filename) -> resolved path,
    fails if not found].  The file is looked for under the folder at any
    depth; without a folder there is nothing to search, which fails. *)
Definition find_file (t : tree) (folder : option string) (name : string)
    : result string :=
  match folder with
  | None => Err TypeError
  | Some f =>
      match find (fun entry : string * string =>
                    is_prefix (path_join f "") (fst entry)
                    && String.eqb (path_name (fst entry)) name)
              (files t) with
      | Some entry => Ok (fst entry)
      | None => Err (ExternalError "NotFoundError")
      end
  end.

Fixpoint write_text (path text : string) (l : list (string * string))
    : list (string * string) :=
  match l with
  | [] => [(path, text)]
  | (p, old) :: rest =>
      if String.eqb path p then (path, text) :: rest
      else (p, old) :: write_text path text rest
  end.

(** Modelled from the spec: [save_to_file] of [archimedes.utils], absent
    from the sources; the spec has [save_to_file(document, path, force) ->
    void, fails if path exists and force is false]. *)
Definition save_to_file (doc : json) (path : string) (force : bool) (t : tree)
    : result unit * tree :=
  match text_at path (files t) with
  | Some _ =>
      if force
      then (Ok tt, {| files := write_text path (dumps doc) (files t);
                      answers := answers t; saved := saved t |})
      else (Err (ExternalError "FileExistsError"), t)
  | None =>
      (Ok tt, {| files := write_text path (dumps doc) (files t);
                 answers := answers t; saved := saved t |})
  end.

(** [os.makedirs(path, exist_ok=True)]: folders are implicit in the paths of
    the files, so there is nothing to do. *)
Definition makedirs (path : string) (t : tree) : result unit * tree :=
  (Ok tt, t).

(** Modelled from the spec: [Kibana.export_by_id], absent from the sources;
    the spec has [export_by_id(type, id) -> artifact-or-collection]. *)
Definition export_by_id (obj_type obj_id : string) (t : tree)
    : result json * tree :=
  match find (fun a : string * string * string * json =>
                let '(ty, id, _, _) := a in
                String.eqb ty obj_type && String.eqb id obj_id)
          (answers t) with
  | Some (_, _, _, payload) => (Ok payload, t)
  | None => (Err (ExternalError "NotFoundError"), t)
  end.

(** Modelled from the spec: [Kibana.export_by_title], absent from the
    sources; the spec has [export_by_title(type, title) ->
    artifact-or-collection]. *)
Definition export_by_title (obj_type obj_title : string) (t : tree)
    : result json * tree :=
  match find (fun a : string * string * string * json =>
                let '(ty, _, title, _) := a in
                String.eqb ty obj_type && String.eqb title obj_title)
          (answers t) with
  | Some (_, _, _, payload) => (Ok payload, t)
  | None => (Err (ExternalError "NotFoundError"), t)
  end.

(** Whether an object has this type and this id. *)
Definition is_object (obj_type : string) (obj_id : json) (obj : json) : bool :=
  match py_getitem obj "type", py_getitem obj "id", obj_id with
  | Ok (JStr ty), Ok (JStr id), JStr wanted =>
      String.eqb ty obj_type && String.eqb id wanted
  | _, _, _ => false
  end.

(** Modelled from the spec: [Kibana.find_by_id], absent from the sources;
    the spec has [find_by_id(type, id) -> artifact].  An id the store does
    not hold, [None] among them, fails. *)
Definition find_by_id (obj_type : string) (obj_id : json) (t : tree)
    : result json * tree :=
  match find (is_object obj_type obj_id) (saved t) with
  | Some obj => (Ok obj, t)
  | None => (Err (ExternalError "NotFoundError"), t)
  end.

Definition same_object (a b : json) : bool :=
  match py_getitem a "type", py_getitem a "id" with
  | Ok (JStr ty), Ok id => is_object ty id b
  | _, _ => false
  end.

(** Modelled from the spec: [Kibana.import_objects], absent from the
    sources; the spec has [import_objects(collection, force) -> void, fails
    if an id conflict exists and force is false]. *)
Definition import_objects (objects : json) (force : bool) (t : tree)
    : result unit * tree :=
  match (items <- py_getitem objects "objects" ;; py_iter items) with
  | Err e => (Err e, t)
  | Ok items =>
      if negb force
         && existsb (fun obj => existsb (same_object obj) (saved t)) items
      then (Err (ExternalError "ConflictError"), t)
      else (Ok tt,
            {| files := files t; answers := answers t;
               saved := (filter (fun old => negb (existsb (same_object old) items))
                           (saved t) ++ items)%list |})
  end.

(** ** The sample *)

Definition search_source (fields : list (string * json)) : string * json :=
  ("kibanaSavedObjectMeta",
   JObj [("searchSourceJSON", JStr (dumps (JObj fields)))]).

Definition panel (obj_type obj_id : string) : json :=
  JObj [("type", JStr obj_type); ("id", JStr obj_id)].

Definition git_index : json :=
  JObj [("type", JStr "index-pattern"); ("id", JStr "idx1");
        ("attributes", JObj [("title", JStr "git")])].

(** A search on the index pattern [idx1]. *)
Definition commits_search : json :=
  JObj [("type", JStr "search"); ("id", JStr "s1");
        ("attributes",
         JObj [("title", JStr "commits");
               search_source [("index", JStr "idx1")]])].

(** A search that declares no index pattern. *)
Definition plain_search : json :=
  JObj [("type", JStr "search"); ("id", JStr "s2");
        ("attributes", JObj [("title", JStr "everything")])].

(** A visualization of the saved search [s1]; its own search source names
    no index pattern. *)
Definition commits_table : json :=
  JObj [("type", JStr "visualization"); ("id", JStr "v1");
        ("attributes",
         JObj [("title", JStr "commits table");
               ("savedSearchId", JStr "s1");
               search_source [("filter", JArr [])]])].

(** A visualization with its own index pattern. *)
Definition authors_pie : json :=
  JObj [("type", JStr "visualization"); ("id", JStr "v2");
        ("attributes",
         JObj [("title", JStr "authors");
               search_source [("index", JStr "idx1")]])].

Definition git_dashboard : json :=
  JObj [("type", JStr "dashboard"); ("id", JStr "D1");
        ("attributes",
         JObj [("title", JStr "Git");
               ("panelsJSON",
                JStr (dumps (JArr [panel "visualization" "v1";
                                   panel "visualization" "v2";
                                   panel "search" "s1"])))])].

(** A dashboard with a panel of a type the resolver does not know. *)
Definition notes_dashboard : json :=
  JObj [("type", JStr "dashboard"); ("id", JStr "d2");
        ("attributes",
         JObj [("title", JStr "Notes");
               ("panelsJSON",
                JStr (dumps (JArr [panel "visualization" "v2";
                                   panel "markdown" "m1"])))])].

(** A dashboard kept under the name of a visualization, with that
    visualization as its panel. *)
Definition misnamed_dashboard : json :=
  JObj [("type", JStr "dashboard"); ("id", JStr "d3");
        ("attributes",
         JObj [("title", JStr "Misnamed");
               ("panelsJSON",
                JStr (dumps (JArr [panel "visualization" "d3"])))])].

(** A dashboard whose first panel has no file and whose second panel is of
    a type the resolver does not know. *)
Definition broken_dashboard : json :=
  JObj [("type", JStr "dashboard"); ("id", JStr "d4");
        ("attributes",
         JObj [("title", JStr "Broken");
               ("panelsJSON",
                JStr (dumps (JArr [panel "visualization" "gone";
                                   panel "markdown" "m1"])))])].

Definition git_bundle : json :=
  JObj [("objects",
         JArr [commits_table; authors_pie; git_dashboard; commits_search])].

Definition sample : tree :=
  {| files :=
       [("kibana/dashboard_d1.json", dumps git_dashboard);
        ("kibana/dashboard_d2.json", dumps notes_dashboard);
        ("kibana/dashboard_d4.json", dumps broken_dashboard);
        ("kibana/visualizations/visualization_v1.json", dumps commits_table);
        ("kibana/visualizations/visualization_v2.json", dumps authors_pie);
        ("kibana/visualizations/visualization_d3.json",
         dumps misnamed_dashboard);
        ("kibana/searches/search_s1.json", dumps commits_search);
        ("kibana/searches/search_s2.json", dumps plain_search);
        ("kibana/index-patterns/index-pattern_idx1.json", dumps git_index);
        ("kibana/notes_2024.json", dumps (JObj [("text", JStr "todo")]))];
     answers :=
       [("dashboard", "D1", "Git", git_bundle);
        ("visualization", "v2", "authors", authors_pie);
        ("search", "s2", "everything", plain_search)];
     saved :=
       [git_index; commits_search; plain_search; commits_table; authors_pie;
        git_dashboard] |}.

(** The folders and the files of the sample, by name. *)
Definition visualizations : option string := Some "kibana/visualizations".
Definition searches : option string := Some "kibana/searches".
Definition index_patterns : option string := Some "kibana/index-patterns".

Definition d1_path : string := "kibana/dashboard_d1.json".
Definition d2_path : string := "kibana/dashboard_d2.json".
Definition d4_path : string := "kibana/dashboard_d4.json".
Definition d3_path : string := "kibana/visualizations/visualization_d3.json".
Definition v1_path : string := "kibana/visualizations/visualization_v1.json".
Definition v2_path : string := "kibana/visualizations/visualization_v2.json".
Definition s1_path : string := "kibana/searches/search_s1.json".
Definition idx1_path : string := "kibana/index-patterns/index-pattern_idx1.json".

(** More of the sample, by name. *)
Definition s2_path : string := "kibana/searches/search_s2.json".
Definition notes_path : string := "kibana/notes_2024.json".

(** A payload with no dashboard in it. *)
Definition loose_bundle : json :=
  JObj [("objects", JArr [authors_pie; commits_search])].

Definition start : world tree := {| state := sample; log := [] |}.

(** A world with nothing on disk, to export into. *)
Definition blank : world tree :=
  {| state := {| files := []; answers := answers sample;
                 saved := saved sample |};
     log := [] |}.

End Sample.

(** * Properties *)

(** ** Lists of paths *)

Lemma existsb_eqb_In (p : string) (files : list string) :
  existsb (String.eqb p) files = true <-> In p files.
Proof.
  rewrite existsb_exists. split.
  - intros [q [Hq Heq]]. apply String.eqb_eq in Heq. now subst.
  - intros H. exists p. split; [assumption | apply String.eqb_refl].
Qed.

Lemma keep_first_In (l : list string) (p : string) :
  In p (keep_first l) <-> In p l.
Proof.
  unfold keep_first. rewrite <- in_rev, nodup_In, <- in_rev. reflexivity.
Qed.

Lemma keep_first_NoDup (l : list string) : NoDup (keep_first l).
Proof.
  unfold keep_first. apply NoDup_rev, NoDup_nodup.
Qed.

Lemma keep_first_snoc (l : list string) (p : string) :
  keep_first (l ++ [p]) = append_new (keep_first l) p.
Proof.
  unfold append_new.
  destruct (existsb (String.eqb p) (keep_first l)) eqn:E.
  - apply (proj1 (existsb_eqb_In _ _)) in E.
    apply (proj1 (keep_first_In _ _)) in E.
    unfold keep_first. rewrite rev_app_distr. simpl.
    destruct (in_dec string_dec p (rev l)) as [_ | n]; [reflexivity | ].
    exfalso. apply n. rewrite <- in_rev. exact E.
  - assert (~ In p l) as n.
    { intros H. apply (proj2 (keep_first_In _ _)) in H.
      apply (proj2 (existsb_eqb_In _ _)) in H. congruence. }
    unfold keep_first. rewrite rev_app_distr. simpl.
    destruct (in_dec string_dec p (rev l)) as [i | _]; [ | reflexivity].
    exfalso. apply n. rewrite in_rev. exact i.
Qed.

Lemma extend_new_keep_first (new_files acc : list string) :
  extend_new (keep_first acc) new_files = keep_first (acc ++ new_files).
Proof.
  revert acc. induction new_files as [ | p rest IH]; intros acc.
  - now rewrite app_nil_r.
  - unfold extend_new in *. simpl.
    rewrite <- keep_first_snoc, IH, <- app_assoc. reflexivity.
Qed.

Lemma extend_new_nil (new_files : list string) :
  extend_new [] new_files = keep_first new_files.
Proof. exact (extend_new_keep_first new_files []). Qed.

Lemma extend_new_app (files a b : list string) :
  extend_new (extend_new files a) b = extend_new files (a ++ b).
Proof. unfold extend_new. now rewrite fold_left_app. Qed.

Lemma extend_new_head (p : string) (new_files pre : list string) :
  exists rest, extend_new (p :: pre) new_files = p :: rest.
Proof.
  revert pre. unfold extend_new.
  induction new_files as [ | q l IH]; intros pre; simpl.
  - now exists pre.
  - unfold append_new at 2.
    destruct (existsb (String.eqb q) (p :: pre)).
    + apply IH.
    + apply (IH (pre ++ [q])%list).
Qed.

Lemma keep_first_head (p : string) (l : list string) :
  exists rest, keep_first (p :: l) = p :: rest.
Proof.
  change (p :: l) with ([p] ++ l)%list.
  rewrite <- (extend_new_keep_first l [p]).
  apply extend_new_head.
Qed.

(** ** File names and leading tokens *)

Lemma lower_app (a b : string) : lower (a ++ b) = lower a ++ lower b.
Proof.
  induction a as [ | c a IH]; cbn [lower append]; [reflexivity | now rewrite IH].
Qed.

Lemma lower_ascii_not_upper (c : ascii) :
  let n := nat_of_ascii (lower_ascii c) in (n < 65 \/ 90 < n)%nat.
Proof.
  unfold lower_ascii. cbv zeta.
  pose proof (nat_ascii_bounded c) as Hbound.
  destruct ((65 <=? nat_of_ascii c)%nat && (nat_of_ascii c <=? 90)%nat) eqn:E.
  - apply andb_true_iff in E. destruct E as [Hlo Hhi].
    apply Nat.leb_le in Hlo. apply Nat.leb_le in Hhi.
    rewrite nat_ascii_embedding by lia. lia.
  - apply andb_false_iff in E. destruct E as [E | E];
      apply Nat.leb_gt in E; lia.
Qed.

Lemma lower_no_upper (s : string) (n : nat) (c : ascii) :
  get n (lower s) = Some c ->
  (nat_of_ascii c < 65 \/ 90 < nat_of_ascii c)%nat.
Proof.
  revert n. induction s as [ | d s IH]; intros n; cbn [lower get].
  - discriminate.
  - destruct n as [ | n].
    + intros H. injection H as <-. apply lower_ascii_not_upper.
    + apply IH.
Qed.

Lemma split_on_cons (sep : ascii) (s : string) :
  exists head tail, split_on sep s = head :: tail.
Proof.
  destruct s as [ | c s]; cbn [split_on].
  - now exists EmptyString, [].
  - destruct (Ascii.eqb c sep); [now eexists; eexists | ].
    destruct (split_on sep s); now eexists; eexists.
Qed.

(** [s.split(sep)[0]] is the part of [s] before the first [sep]. *)
Lemma split_on_head (sep : ascii) (s : string) :
  exists rest,
    s = hd "" (split_on sep s) ++ rest
    /\ (rest = "" \/ exists rest', rest = String sep rest')
    /\ (forall n, get n (hd "" (split_on sep s)) <> Some sep).
Proof.
  induction s as [ | c s IH]; cbn [split_on].
  - exists "". repeat split; [now left | intros n; now destruct n].
  - destruct (Ascii.eqb c sep) eqn:E.
    + apply Ascii.eqb_eq in E. subst c. exists (String sep s).
      repeat split; [right; now exists s | intros n; now destruct n].
    + destruct IH as [rest [Hs [Hrest Hfree]]].
      destruct (split_on_cons sep s) as [head [tail Hsplit]].
      rewrite Hsplit in *. cbn [hd] in *.
      exists rest. repeat split.
      * cbn [append]. now rewrite <- Hs.
      * exact Hrest.
      * intros [ | n]; cbn [get].
        -- intros H. injection H as ->. now rewrite Ascii.eqb_refl in E.
        -- apply Hfree.
Qed.

(** ** The resolver *)

Section ResolverFacts.

Variable json_loads : string -> result json.
Variable load_json : string -> result json.
Variable find_file : option string -> string -> result string.

(** An object without [kibanaSavedObjectMeta] declares no index pattern. *)
Lemma find_index_pattern_no_meta (obj : json) (fields : list (string * json)) :
  py_getitem obj "attributes" = Ok (JObj fields) ->
  lookup "kibanaSavedObjectMeta" fields = None ->
  __find_index_pattern json_loads obj = Ok JNull.
Proof.
  intros Hattr Hmeta. unfold __find_index_pattern.
  rewrite Hattr. simpl. rewrite Hmeta. reflexivity.
Qed.

(** Nor does one whose [kibanaSavedObjectMeta] has no [searchSourceJSON]. *)
Lemma find_index_pattern_no_source (obj : json)
    (fields meta : list (string * json)) :
  py_getitem obj "attributes" = Ok (JObj fields) ->
  lookup "kibanaSavedObjectMeta" fields = Some (JObj meta) ->
  lookup "searchSourceJSON" meta = None ->
  __find_index_pattern json_loads obj = Ok JNull.
Proof.
  intros Hattr Hmeta Hsrc. unfold __find_index_pattern.
  rewrite Hattr. simpl. rewrite Hmeta. simpl. rewrite Hsrc. reflexivity.
Qed.

(** A search with no index-pattern id stands alone. *)
Lemma find_search_files_no_id (search_path : string)
    (index_patterns_folder : option string) (content id : json) :
  load_json search_path = Ok content ->
  __find_index_pattern json_loads content = Ok id ->
  truthy id = false ->
  _find_search_files json_loads load_json find_file search_path
    index_patterns_folder = Ok [search_path].
Proof.
  intros Hload Hid Hfalse. unfold _find_search_files.
  rewrite Hload. simpl. rewrite Hid. simpl. rewrite Hfalse. reflexivity.
Qed.

(** With an id, the folder goes to [find_file] as it is, given or not. *)
Lemma find_search_files_id (search_path : string)
    (index_patterns_folder : option string) (content : json) (id : string) :
  load_json search_path = Ok content ->
  __find_index_pattern json_loads content = Ok (JStr id) ->
  id <> "" ->
  _find_search_files json_loads load_json find_file search_path
    index_patterns_folder =
    (ip_path <- find_file index_patterns_folder
                  (get_file_name INDEX_PATTERN id) ;;
     Ok [ip_path; search_path]).
Proof.
  intros Hload Hid Hne. unfold _find_search_files.
  rewrite Hload. simpl. rewrite Hid. simpl.
  apply String.eqb_neq in Hne. rewrite Hne. simpl.
  destruct (find_file _ _); reflexivity.
Qed.

(** The index-pattern file comes before the search. *)
Lemma find_search_files_located (search_path : string)
    (index_patterns_folder : option string) (content : json)
    (id ip_path : string) :
  load_json search_path = Ok content ->
  __find_index_pattern json_loads content = Ok (JStr id) ->
  id <> "" ->
  find_file index_patterns_folder (get_file_name INDEX_PATTERN id)
    = Ok ip_path ->
  _find_search_files json_loads load_json find_file search_path
    index_patterns_folder = Ok [ip_path; search_path].
Proof.
  intros Hload Hid Hne Hfind.
  rewrite (find_search_files_id _ Hload Hid Hne), Hfind. reflexivity.
Qed.

(** Whatever [find_file] answers for a folder that is not there, a search
    that declares an index pattern is never returned alone. *)
Lemma find_search_files_id_not_alone (search_path : string)
    (index_patterns_folder : option string) (content : json) (id : string) :
  load_json search_path = Ok content ->
  __find_index_pattern json_loads content = Ok (JStr id) ->
  id <> "" ->
  _find_search_files json_loads load_json find_file search_path
    index_patterns_folder <> Ok [search_path].
Proof.
  intros Hload Hid Hne.
  rewrite (find_search_files_id _ Hload Hid Hne).
  destruct (find_file _ _); simpl; discriminate.
Qed.

(** The list a search resolves to always ends in the search itself. *)
Lemma find_search_files_last (search_path : string)
    (index_patterns_folder : option string) (files : list string) :
  _find_search_files json_loads load_json find_file search_path
    index_patterns_folder = Ok files ->
  exists deps, files = (deps ++ [search_path])%list.
Proof.
  unfold _find_search_files.
  destruct (load_json search_path) as [content | ]; cbn [bind];
    [ | discriminate].
  destruct (__find_index_pattern json_loads content) as [id | ]; cbn [bind];
    [ | discriminate].
  destruct (truthy id); cbn [negb].
  - destruct (get_file_name_py (JStr INDEX_PATTERN) id) as [name | ];
      cbn [bind]; [ | discriminate].
    destruct (find_file index_patterns_folder name) as [ip_path | ];
      cbn [bind]; [ | discriminate].
    intros H. injection H as H. subst files. now exists [ip_path].
  - intros H. injection H as H. subst files. now exists [].
Qed.

(** The list a visualization resolves to when no saved search is looked
    up: its own search source alone. *)
Lemma find_visualization_files_own (visualization_path : string)
    (searches_folder index_patterns_folder : option string)
    (content attributes : json) (has_search : bool) (own : list string) :
  load_json visualization_path = Ok content ->
  py_getitem content "attributes" = Ok attributes ->
  py_in "savedSearchId" attributes = Ok has_search ->
  has_search && folder_given searches_folder = false ->
  _find_search_files json_loads load_json find_file visualization_path
    index_patterns_folder = Ok own ->
  _find_visualization_files json_loads load_json find_file
    visualization_path searches_folder index_patterns_folder
    = Ok (keep_first own).
Proof.
  intros Hload Hattr Hin Hno Hown. unfold _find_visualization_files.
  rewrite Hload. cbn [bind]. rewrite Hattr. cbn [bind].
  rewrite Hin. cbn [bind]. rewrite Hno. cbn [bind].
  rewrite Hown. cbn [bind]. now rewrite extend_new_nil.
Qed.

(** With [savedSearchId] in the attributes and a searches folder, the
    search's file is looked up by name and put first; what follows is what
    the visualization's own search source resolves to, without the paths
    already there, in first-seen order. *)
Lemma find_visualization_files_saved_search (visualization_path : string)
    (searches_folder index_patterns_folder : option string)
    (content attributes : json) (search_id search_path : string)
    (own : list string) :
  load_json visualization_path = Ok content ->
  py_getitem content "attributes" = Ok attributes ->
  py_in "savedSearchId" attributes = Ok true ->
  folder_given searches_folder = true ->
  py_getitem attributes "savedSearchId" = Ok (JStr search_id) ->
  find_file searches_folder (get_file_name SEARCH search_id)
    = Ok search_path ->
  _find_search_files json_loads load_json find_file visualization_path
    index_patterns_folder = Ok own ->
  exists rest,
    _find_visualization_files json_loads load_json find_file
      visualization_path searches_folder index_patterns_folder
      = Ok (search_path :: rest)
    /\ search_path :: rest = keep_first (search_path :: own)
    /\ NoDup (search_path :: rest)
    /\ (forall p, In p rest -> In p own).
Proof.
  intros Hload Hattr Hin Hfolder Hid Hfind Hown.
  destruct (keep_first_head search_path own) as [rest Hrest].
  exists rest.
  assert (_find_visualization_files json_loads load_json find_file
            visualization_path searches_folder index_patterns_folder
          = Ok (keep_first (search_path :: own))) as Hrun.
  { unfold _find_visualization_files.
    rewrite Hload. cbn [bind]. rewrite Hattr. cbn [bind].
    rewrite Hin. cbn [bind]. rewrite Hfolder. cbn [andb].
    rewrite Hid. cbn [bind get_file_name_py]. rewrite Hfind. cbn [bind].
    rewrite Hown. cbn [bind].
    change (append_new [] search_path) with (keep_first [search_path]).
    now rewrite extend_new_keep_first. }
  pose proof (keep_first_NoDup (search_path :: own)) as Hnodup.
  rewrite Hrest in Hnodup.
  repeat split.
  - now rewrite Hrun, Hrest.
  - now rewrite Hrest.
  - exact Hnodup.
  - intros p Hp.
    assert (In p (keep_first (search_path :: own))) as Hp'.
    { rewrite Hrest. now right. }
    apply (proj1 (keep_first_In _ _)) in Hp'.
    destruct Hp' as [<- | Hp']; [ | exact Hp'].
    apply NoDup_cons_iff in Hnodup. now destruct Hnodup.
Qed.

(** What a panel resolves to: for a visualization panel, what
    [_find_visualization_files] returns for its file; for a search panel,
    what [_find_search_files] returns for its file. *)
Lemma panel_files_visualization (visualizations_folder searches_folder
    index_patterns_folder : option string) (panel : json)
    (panel_id panel_path : string) :
  py_getitem panel "type" = Ok (JStr VISUALIZATION) ->
  py_getitem panel "id" = Ok (JStr panel_id) ->
  find_file visualizations_folder (get_file_name VISUALIZATION panel_id)
    = Ok panel_path ->
  panel_files json_loads load_json find_file visualizations_folder
    searches_folder index_patterns_folder panel
  = _find_visualization_files json_loads load_json find_file panel_path
      searches_folder index_patterns_folder.
Proof.
  intros Htype Hid Hfind. unfold panel_files.
  rewrite Htype. cbn [bind]. change (eq_str (JStr VISUALIZATION) VISUALIZATION)
    with true. cbv iota.
  rewrite Hid. cbn [bind get_file_name_py]. now rewrite Hfind.
Qed.

Lemma panel_files_search (visualizations_folder searches_folder
    index_patterns_folder : option string) (panel : json)
    (panel_id panel_path : string) :
  py_getitem panel "type" = Ok (JStr SEARCH) ->
  py_getitem panel "id" = Ok (JStr panel_id) ->
  find_file searches_folder (get_file_name SEARCH panel_id) = Ok panel_path ->
  panel_files json_loads load_json find_file visualizations_folder
    searches_folder index_patterns_folder panel
  = _find_search_files json_loads load_json find_file panel_path
      index_patterns_folder.
Proof.
  intros Htype Hid Hfind. unfold panel_files.
  rewrite Htype. cbn [bind]. change (eq_str (JStr SEARCH) VISUALIZATION)
    with false. change (eq_str (JStr SEARCH) SEARCH) with true. cbv iota.
  rewrite Hid. cbn [bind get_file_name_py]. now rewrite Hfind.
Qed.

(** The loop over the panels succeeds exactly when every panel resolves,
    and then holds the first occurrences of what they resolve to. *)
Lemma panels_loop_ok (visualizations_folder searches_folder
    index_patterns_folder : option string) (panels : list json) :
  forall (acc files : list string),
    panels_loop json_loads load_json find_file visualizations_folder
      searches_folder index_patterns_folder panels acc = Ok files <->
    exists per_panel,
      Forall2 (fun panel resolved =>
                 panel_files json_loads load_json find_file
                   visualizations_folder searches_folder
                   index_patterns_folder panel = Ok resolved)
        panels per_panel
      /\ files = extend_new acc (concat per_panel).
Proof.
  induction panels as [ | panel rest IH]; intros acc files; cbn [panels_loop].
  - split.
    + intros H. injection H as H. subst files. exists []. now split.
    + intros [per_panel [Hall ->]]. inversion Hall. reflexivity.
  - split.
    + destruct (panel_files _ _ _ _ _ _ panel) as [resolved | ] eqn:Hpanel;
        cbn [bind]; [ | discriminate].
      intros H. apply IH in H. destruct H as [per_panel [Hall ->]].
      exists (resolved :: per_panel). split.
      * now constructor.
      * cbn [concat]. now rewrite extend_new_app.
    + intros [per_panel [Hall ->]].
      inversion Hall as [ | ? resolved ? others Hpanel Hrest]. subst.
      rewrite Hpanel. cbn [bind]. apply IH. exists others. split.
      * exact Hrest.
      * cbn [concat]. now rewrite extend_new_app.
Qed.

(** A panel of an unsupported type stops the loop, with [ObjectTypeError]
    when the loop gets to it. *)
Lemma panels_loop_unsupported (visualizations_folder searches_folder
    index_patterns_folder : option string) (panel panel_type : json)
    (after : list json) :
  py_getitem panel "type" = Ok panel_type ->
  eq_str panel_type VISUALIZATION = false ->
  eq_str panel_type SEARCH = false ->
  forall (before : list json) (acc : list string),
    (exists e,
       panels_loop json_loads load_json find_file visualizations_folder
         searches_folder index_patterns_folder (before ++ panel :: after) acc
       = Err e)
    /\ (Forall (fun p => exists resolved,
                  panel_files json_loads load_json find_file
                    visualizations_folder searches_folder
                    index_patterns_folder p = Ok resolved) before ->
        panels_loop json_loads load_json find_file visualizations_folder
          searches_folder index_patterns_folder (before ++ panel :: after) acc
        = Err (ObjectTypeError panel_type)).
Proof.
  intros Htype Hvis Hsearch.
  assert (panel_files json_loads load_json find_file visualizations_folder
            searches_folder index_patterns_folder panel
          = Err (ObjectTypeError panel_type)) as Hpanel.
  { unfold panel_files. rewrite Htype. cbn [bind].
    now rewrite Hvis, Hsearch. }
  induction before as [ | p before IH]; intros acc.
  - cbn [app panels_loop]. rewrite Hpanel. cbn [bind].
    split; [now eexists | reflexivity].
  - cbn [app panels_loop].
    destruct (panel_files _ _ _ _ _ _ p) as [resolved | e] eqn:Hp; cbn [bind].
    + destruct (IH (extend_new acc resolved)) as [Herr Hreach].
      split; [exact Herr | ].
      intros Hall. apply Hreach. now inversion Hall.
    + split; [now eexists | ].
      intros Hall. inversion Hall as [ | ? ? [resolved Hok] ?]. congruence.
Qed.

(** C5: without a visualizations folder ([None] or the empty string) a
    dashboard file that loads resolves to its own path alone, whatever its
    content is: the panel list is neither read nor parsed, and no file is
    looked up. *)
Theorem find_dashboard_files_no_visualizations_folder
    (dashboard_path : string)
    (visualizations_folder searches_folder index_patterns_folder
     : option string) (content : json) :
  load_json dashboard_path = Ok content ->
  folder_given visualizations_folder = false ->
  _find_dashboard_files json_loads load_json find_file dashboard_path
    visualizations_folder searches_folder index_patterns_folder
    = Ok [dashboard_path].
Proof.
  intros Hload Hfolder. unfold _find_dashboard_files.
  rewrite Hload. cbn [bind]. rewrite Hfolder. reflexivity.
Qed.

(** With a visualizations folder, the call returns exactly when the panel
    list parses and every panel resolves. *)
Lemma find_dashboard_files_returns (dashboard_path : string)
    (visualizations_folder searches_folder index_patterns_folder
     : option string) (content : json) (files : list string) :
  load_json dashboard_path = Ok content ->
  folder_given visualizations_folder = true ->
  _find_dashboard_files json_loads load_json find_file dashboard_path
    visualizations_folder searches_folder index_patterns_folder = Ok files ->
  exists panels per_panel,
    dashboard_panels json_loads content = Ok panels
    /\ Forall2 (fun panel resolved =>
                  panel_files json_loads load_json find_file
                    visualizations_folder searches_folder
                    index_patterns_folder panel = Ok resolved)
         panels per_panel
    /\ files = (keep_first (concat per_panel) ++ [dashboard_path])%list.
Proof.
  intros Hload Hfolder. unfold _find_dashboard_files.
  rewrite Hload. cbn [bind]. rewrite Hfolder. cbn [negb].
  destruct (dashboard_panels json_loads content) as [panels | ];
    cbn [bind]; [ | discriminate].
  destruct (panels_loop _ _ _ _ _ _ panels []) as [deps | ] eqn:Hloop;
    cbn [bind]; [ | discriminate].
  intros H. injection H as H. subst files.
  apply panels_loop_ok in Hloop. destruct Hloop as [per_panel [Hall ->]].
  exists panels, per_panel. now rewrite extend_new_nil.
Qed.


(** C4, as the code has it: with a visualizations folder, a dashboard with
    a panel whose type is neither visualization nor search never resolves
    to a list; the error is [ObjectTypeError], carrying the type, when the
    panels before that one resolve. *)
Theorem find_dashboard_files_unsupported_panel (dashboard_path : string)
    (visualizations_folder searches_folder index_patterns_folder
     : option string) (content : json) (before after : list json)
    (panel panel_type : json) :
  load_json dashboard_path = Ok content ->
  dashboard_panels json_loads content = Ok (before ++ panel :: after)%list ->
  folder_given visualizations_folder = true ->
  py_getitem panel "type" = Ok panel_type ->
  eq_str panel_type VISUALIZATION = false ->
  eq_str panel_type SEARCH = false ->
  (exists e,
     _find_dashboard_files json_loads load_json find_file dashboard_path
       visualizations_folder searches_folder index_patterns_folder = Err e)
  /\ (Forall (fun p => exists resolved,
                panel_files json_loads load_json find_file
                  visualizations_folder searches_folder
                  index_patterns_folder p = Ok resolved) before ->
      _find_dashboard_files json_loads load_json find_file dashboard_path
        visualizations_folder searches_folder index_patterns_folder
      = Err (ObjectTypeError panel_type)).
Proof.
  intros Hload Hpanels Hfolder Htype Hvis Hsearch.
  destruct (panels_loop_unsupported visualizations_folder searches_folder
              index_patterns_folder panel after Htype Hvis Hsearch before [])
    as [[e Herr] Hreach].
  unfold _find_dashboard_files.
  rewrite Hload. cbn [bind]. rewrite Hfolder. cbn [negb].
  rewrite Hpanels. cbn [bind].
  split.
  - exists e. now rewrite Herr.
  - intros Hall. now rewrite (Hreach Hall).
Qed.

End ResolverFacts.

(** ** The orchestrator *)

Section OrchestratorFacts.

Variable St : Type.
Variable json_loads : string -> result json.
Variable load_json : St -> string -> result json.
Variable find_file : St -> option string -> string -> result string.
Variable save_to_file : json -> string -> bool -> St -> result unit * St.
Variable makedirs : string -> St -> result unit * St.
Variable export_by_id : string -> string -> St -> result json * St.
Variable export_by_title : string -> string -> St -> result json * St.
Variable find_by_id : string -> json -> St -> result json * St.
Variable import_objects : json -> bool -> St -> result unit * St.

Lemma log_grows_ret (A : Type) (a : A) : log_grows (ret a : M St A).
Proof. intros w. exists []. now rewrite app_nil_r. Qed.

Lemma log_grows_raise (A : Type) (e : error) : log_grows (raise e : M St A).
Proof. intros w. exists []. now rewrite app_nil_r. Qed.

Lemma log_grows_lift (A : Type) (r : result A) : log_grows (lift r : M St A).
Proof. intros w. exists []. now rewrite app_nil_r. Qed.

Lemma log_grows_reading (A : Type) (f : St -> result A) :
  log_grows (reading f).
Proof. intros w. exists []. now rewrite app_nil_r. Qed.

Lemma log_grows_call (A : Type) (e : event) (op : St -> result A * St) :
  log_grows (call e op).
Proof.
  intros w. exists [e]. unfold call. now destruct (op (state w)).
Qed.

Lemma log_grows_bindM (A B : Type) (m : M St A) (k : A -> M St B) :
  log_grows m -> (forall a, log_grows (k a)) -> log_grows (bindM m k).
Proof.
  intros Hm Hk w. unfold bindM.
  destruct (Hm w) as [tail1 H1].
  destruct (m w) as [[a | e] w1]; cbn [snd] in *.
  - destruct (Hk a w1) as [tail2 H2].
    exists (tail1 ++ tail2)%list. now rewrite H2, H1, app_assoc.
  - now exists tail1.
Qed.

Ltac log_grows :=
  repeat first
    [ apply log_grows_ret | apply log_grows_raise | apply log_grows_lift
    | apply log_grows_reading | apply log_grows_call
    | apply log_grows_bindM; [ | intro]
    | match goal with
      | |- log_grows (if ?b then _ else _) => destruct b
      | |- log_grows (match ?x with _ => _ end) => destruct x
      end ].

Lemma log_grows_get_folder_path (root_path : string) (obj_type : json) :
  log_grows (get_folder_path makedirs root_path obj_type).
Proof. unfold get_folder_path. log_grows. Qed.

Lemma log_grows_save_object (folder_path : string) (force : bool) (obj : json) :
  log_grows (save_object save_to_file makedirs folder_path force obj).
Proof.
  unfold save_object. log_grows.
Qed.

Lemma log_grows_save_index_pattern_of (folder_path : string) (force : bool)
    (obj : json) :
  log_grows (save_index_pattern_of json_loads save_to_file makedirs find_by_id
               folder_path force obj).
Proof.
  unfold save_index_pattern_of. log_grows.
Qed.

Lemma log_grows_export_loop (folder_path : string) (force index_pattern : bool)
    (objs : list json) :
  log_grows (export_loop json_loads save_to_file makedirs find_by_id
               folder_path force index_pattern objs).
Proof.
  induction objs as [ | obj rest IH]; cbn [export_loop].
  - apply log_grows_ret.
  - apply log_grows_bindM; [ | intros _; exact IH].
    unfold export_object. apply log_grows_bindM.
    + apply log_grows_save_object.
    + intros _. destruct index_pattern.
      * apply log_grows_save_index_pattern_of.
      * apply log_grows_ret.
Qed.

Lemma log_grows_export_objects (data : json) (obj_type folder_path : string)
    (one_file force index_pattern : bool) :
  log_grows (__export_objects json_loads save_to_file makedirs find_by_id data
               obj_type folder_path one_file force index_pattern).
Proof.
  unfold __export_objects.
  destruct (one_file && String.eqb obj_type DASHBOARD).
  - log_grows.
  - apply log_grows_bindM; [apply log_grows_lift | intros has_objects].
    apply log_grows_bindM; [apply log_grows_lift | intros objs].
    apply log_grows_export_loop.
Qed.


(** C7: an export with neither an id nor a title (each [None] or empty)
    raises [ExportError] and leaves the world as it was, so the remote store
    is not called.  With an id, the first thing the call does is
    [export_by_id]; without an id and with a title, it is [export_by_title];
    everything else the call does, any write included, comes after. *)
Theorem export_fetches_first (obj_type folder_path : string)
    (obj_id obj_title : option string) (one_file force index_pattern : bool)
    (w : world St) :
  (given obj_id = None -> given obj_title = None ->
   export json_loads save_to_file makedirs export_by_id export_by_title
     find_by_id obj_type folder_path obj_id obj_title one_file force
     index_pattern w = (Err ExportError, w))
  /\ (forall id, given obj_id = Some id ->
      exists tail,
        log (snd (export json_loads save_to_file makedirs export_by_id
                    export_by_title find_by_id obj_type folder_path obj_id
                    obj_title one_file force index_pattern w))
        = (log w ++ EvExportById obj_type id :: tail)%list)
  /\ (forall title, given obj_id = None -> given obj_title = Some title ->
      exists tail,
        log (snd (export json_loads save_to_file makedirs export_by_id
                    export_by_title find_by_id obj_type folder_path obj_id
                    obj_title one_file force index_pattern w))
        = (log w ++ EvExportByTitle obj_type title :: tail)%list).
Proof.
  assert (forall (e : event) (op : St -> result json * St),
            exists tail,
              log (snd (bindM (call e op)
                          (fun obj =>
                             __export_objects json_loads save_to_file makedirs
                               find_by_id obj obj_type folder_path one_file
                               force index_pattern) w))
              = (log w ++ e :: tail)%list) as Hfetch.
  { intros e op. unfold bindM, call.
    destruct (op (state w)) as [[obj | err] s]; cbn [snd log].
    - destruct (log_grows_export_objects obj obj_type folder_path one_file
                  force index_pattern {| state := s; log := log w ++ [e] |})
        as [tail Htail].
      exists tail. rewrite Htail. cbn [log]. now rewrite <- app_assoc.
    - now exists []. }
  unfold export. repeat split.
  - intros -> ->. reflexivity.
  - intros id ->. apply Hfetch.
  - intros title -> ->. apply Hfetch.
Qed.

(** The objects the comprehension keeps have type ["dashboard"]. *)
Lemma dashboards_in_type (items dashboards : list json) :
  dashboards_in items = Ok dashboards ->
  Forall (fun d => py_getitem d "type" = Ok (JStr "dashboard")) dashboards.
Proof.
  revert dashboards. induction items as [ | obj rest IH]; intros dashboards;
    cbn [dashboards_in].
  - intros H. injection H as <-. constructor.
  - destruct (py_getitem obj "type") as [obj_type | ] eqn:Htype; cbn [bind];
      [ | discriminate].
    destruct (dashboards_in rest) as [others | ]; cbn [bind]; [ | discriminate].
    intros H. injection H as <-.
    destruct (eq_str obj_type "dashboard") eqn:E.
    + constructor; [ | now apply IH].
      destruct obj_type; try discriminate.
      apply String.eqb_eq in E. now subst.
    + now apply IH.
Qed.

(** C8: a one-file export of a dashboard makes one write and creates no
    folder.  When the payload lists a dashboard object whose id is a string,
    the one call to [save_to_file] takes the whole payload and the path made
    of the destination folder and of [get_file_name] on that object's type
    and id, however many other objects the payload lists; in every case the
    log gets at most that one write. *)
Theorem export_one_file_writes_once (data : json) (folder_path : string)
    (force index_pattern : bool) (w : world St) :
  (forall objects items dash others dash_id,
     py_getitem data "objects" = Ok objects ->
     py_iter objects = Ok items ->
     dashboards_in items = Ok (dash :: others) ->
     py_getitem dash "id" = Ok (JStr dash_id) ->
     let file_path :=
       path_join folder_path (get_file_name "dashboard" dash_id) in
     py_getitem dash "type" = Ok (JStr "dashboard")
     /\ __export_objects json_loads save_to_file makedirs find_by_id data
          DASHBOARD folder_path true force index_pattern w
        = (fst (save_to_file data file_path force (state w)),
           {| state := snd (save_to_file data file_path force (state w));
              log := log w ++ [EvSaveToFile data file_path force] |}))
  /\ (snd (__export_objects json_loads save_to_file makedirs find_by_id data
             DASHBOARD folder_path true force index_pattern w) = w
      \/ exists file_path,
           log (snd (__export_objects json_loads save_to_file makedirs
                       find_by_id data DASHBOARD folder_path true force
                       index_pattern w))
           = (log w ++ [EvSaveToFile data file_path force])%list).
Proof.
  split.
  - intros objects items dash others dash_id Hobjects Hitems Hdash Hid file_path.
    assert (py_getitem dash "type" = Ok (JStr "dashboard")) as Htype.
    { apply dashboards_in_type in Hdash. now inversion Hdash. }
    split; [exact Htype | ].
    unfold __export_objects.
    change (true && String.eqb DASHBOARD DASHBOARD) with true. cbv iota.
    unfold bindM, lift, call.
    rewrite Hobjects, Hitems, Hdash, Htype, Hid. cbn [get_file_name_py].
    fold file_path. now destruct (save_to_file data file_path force (state w)).
  - unfold __export_objects.
    change (true && String.eqb DASHBOARD DASHBOARD) with true. cbv iota.
    unfold bindM, lift, call.
    destruct (py_getitem data "objects") as [objects | ]; [ | now left].
    destruct (py_iter objects) as [items | ]; [ | now left].
    destruct (dashboards_in items) as [[ | dash others] | ]; try now left.
    destruct (py_getitem dash "type") as [dash_type | ]; [ | now left].
    destruct (py_getitem dash "id") as [dash_id | ]; [ | now left].
    destruct (get_file_name_py dash_type dash_id) as [name | ]; [ | now left].
    right. exists (path_join folder_path name).
    now destruct (save_to_file data (path_join folder_path name) force (state w)).
Qed.

(** What [import_from_file] does for the three known types: it resolves
    with the matching procedure, then imports the files in order. *)
Lemma import_from_file_dispatch (file_path : string)
    (visualizations_folder searches_folder index_patterns_folder
     : option string) (force : bool) (w : world St) (content : json) :
  load_json (state w) file_path = Ok content ->
  truthy content = true ->
  let resolved :=
    if String.eqb (file_type_of file_path) DASHBOARD then
      _find_dashboard_files json_loads (load_json (state w))
        (find_file (state w)) file_path visualizations_folder searches_folder
        index_patterns_folder
    else if String.eqb (file_type_of file_path) VISUALIZATION then
      _find_visualization_files json_loads (load_json (state w))
        (find_file (state w)) file_path searches_folder index_patterns_folder
    else if String.eqb (file_type_of file_path) SEARCH then
      _find_search_files json_loads (load_json (state w))
        (find_file (state w)) file_path index_patterns_folder
    else Err (FileTypeError (file_type_of file_path)) in
  import_from_file json_loads load_json find_file import_objects file_path
    true visualizations_folder searches_folder index_patterns_folder force w
  = match resolved with
    | Ok files => __import_files load_json import_objects files force w
    | Err e => (Err e, w)
    end.
Proof.
  intros Hload Htruthy resolved. subst resolved.
  unfold import_from_file, bindM, reading, raise.
  rewrite Hload, Htruthy. cbn [negb].
  destruct (String.eqb (file_type_of file_path) DASHBOARD); [reflexivity | ].
  destruct (String.eqb (file_type_of file_path) VISUALIZATION); [reflexivity | ].
  destruct (String.eqb (file_type_of file_path) SEARCH); reflexivity.
Qed.

(** C6: on an import that expands references, of a file that loads to
    something non-empty, the type is the part of the file's name before the
    first underscore, in lower case; when it is none of dashboard,
    visualization and search the call raises [FileTypeError] with that type
    and leaves the world as it was: nothing is imported. *)
Theorem import_from_file_unknown_type (file_path : string)
    (visualizations_folder searches_folder index_patterns_folder
     : option string) (force : bool) (w : world St) (content : json) :
  load_json (state w) file_path = Ok content ->
  truthy content = true ->
  file_type_of file_path <> DASHBOARD ->
  file_type_of file_path <> VISUALIZATION ->
  file_type_of file_path <> SEARCH ->
  import_from_file json_loads load_json find_file import_objects file_path
    true visualizations_folder searches_folder index_patterns_folder force w
  = (Err (FileTypeError (file_type_of file_path)), w)
  /\ exists token rest,
       path_name file_path = token ++ rest
       /\ (rest = "" \/ exists rest', rest = String "_" rest')
       /\ (forall n, get n token <> Some "_"%char)
       /\ file_type_of file_path = lower token.
Proof.
  intros Hload Htruthy Hdash Hvis Hsearch. split.
  - rewrite (import_from_file_dispatch _ _ _ _ _ Hload Htruthy).
    apply String.eqb_neq in Hdash, Hvis, Hsearch.
    now rewrite Hdash, Hvis, Hsearch.
  - destruct (split_on_head "_" (path_name file_path))
      as [rest [Hname [Hrest Hfree]]].
    exists (hd "" (split_on "_" (path_name file_path))), rest.
    repeat split; assumption.
Qed.

(** The loop over a list in two parts. *)
Lemma export_loop_app (folder_path : string) (force index_pattern : bool)
    (before after : list json) (w : world St) :
  export_loop json_loads save_to_file makedirs find_by_id folder_path force
    index_pattern (before ++ after) w
  = match export_loop json_loads save_to_file makedirs find_by_id folder_path
            force index_pattern before w with
    | (Ok _, w0) =>
        export_loop json_loads save_to_file makedirs find_by_id folder_path
          force index_pattern after w0
    | (Err e, w0) => (Err e, w0)
    end.
Proof.
  revert w. induction before as [ | obj rest IH]; intros w;
    cbn [app export_loop].
  - reflexivity.
  - unfold bindM.
    destruct (export_object _ _ _ _ _ _ _ obj w) as [[[] | e] w1].
    + apply IH.
    + reflexivity.
Qed.

(** The second half of the loop body starts with the lookup, whatever the
    id is. *)
Lemma save_index_pattern_of_log (folder_path : string) (force : bool)
    (obj id : json) (w : world St) :
  __find_index_pattern json_loads obj = Ok id ->
  exists tail,
    log (snd (save_index_pattern_of json_loads save_to_file makedirs
                find_by_id folder_path force obj w))
    = (log w ++ EvFindById INDEX_PATTERN id :: tail)%list.
Proof.
  intros Hid.
  unfold save_index_pattern_of, get_folder_path, bindM, lift, call, ret.
  rewrite Hid.
  destruct (find_by_id INDEX_PATTERN id (state w)) as [[found | e] s];
    cbn [state log snd]; [ | now exists []].
  destruct (makedirs _ s) as [[[] | e] s1]; cbn [state log snd].
  - destruct (get_file_name_py (JStr INDEX_PATTERN) id) as [name | e];
      cbn [state log snd].
    + destruct (save_to_file found _ force s1) as [r s2]; cbn [state log snd].
      rewrite <- !app_assoc. eexists. reflexivity.
    + rewrite <- !app_assoc. eexists. reflexivity.
  - rewrite <- !app_assoc. eexists. reflexivity.
Qed.

(** [get_file_name] takes strings: with any other id it ends in an error. *)
Lemma save_index_pattern_of_not_string (folder_path : string) (force : bool)
    (obj id : json) (w : world St) :
  __find_index_pattern json_loads obj = Ok id ->
  (forall s, id <> JStr s) ->
  exists e,
    fst (save_index_pattern_of json_loads save_to_file makedirs find_by_id
           folder_path force obj w) = Err e.
Proof.
  intros Hid Hnot.
  unfold save_index_pattern_of, get_folder_path, bindM, lift, call, ret.
  rewrite Hid.
  destruct (find_by_id INDEX_PATTERN id (state w)) as [[found | e] s];
    cbn [state log fst]; [ | now exists e].
  destruct (makedirs _ s) as [[[] | e] s1]; cbn [state log fst];
    [ | now exists e].
  destruct id; cbn [get_file_name_py fst]; try (now eexists).
  now destruct (Hnot s0).
Qed.

(** C10: in a multi-file export with [index_pattern] set, once an object is
    written the next thing the call does is [find_by_id] on whatever
    [__find_index_pattern] gave for it, [None] included: no branch skips the
    lookup.  The same value then goes to [get_file_name], so that with
    anything but a string the call ends in an error. *)
Theorem export_looks_up_index_pattern_always (data : json)
    (obj_type folder_path : string) (one_file force : bool)
    (has_objects : bool) (before after : list json) (obj id : json)
    (w w0 w1 : world St) :
  one_file && String.eqb obj_type DASHBOARD = false ->
  py_in "objects" data = Ok has_objects ->
  (if negb has_objects then Ok [data]
   else (objects <- py_getitem data "objects" ;; py_iter objects))
  = Ok (before ++ obj :: after)%list ->
  export_loop json_loads save_to_file makedirs find_by_id folder_path force
    true before w = (Ok tt, w0) ->
  save_object save_to_file makedirs folder_path force obj w0 = (Ok tt, w1) ->
  __find_index_pattern json_loads obj = Ok id ->
  (exists tail,
     log (snd (__export_objects json_loads save_to_file makedirs find_by_id
                 data obj_type folder_path one_file force true w))
     = (log w1 ++ EvFindById INDEX_PATTERN id :: tail)%list)
  /\ ((forall s, id <> JStr s) ->
      exists e,
        fst (__export_objects json_loads save_to_file makedirs find_by_id
               data obj_type folder_path one_file force true w) = Err e).
Proof.
  intros Hmode Hin Hobjs Hbefore Hsave Hid.
  assert (__export_objects json_loads save_to_file makedirs find_by_id data
            obj_type folder_path one_file force true w
          = match save_index_pattern_of json_loads save_to_file makedirs
                    find_by_id folder_path force obj w1 with
            | (Ok _, w2) =>
                export_loop json_loads save_to_file makedirs find_by_id
                  folder_path force true after w2
            | (Err e, w2) => (Err e, w2)
            end) as ->.
  { unfold __export_objects. rewrite Hmode.
    unfold bindM at 1 2, lift. rewrite Hin, Hobjs.
    rewrite export_loop_app, Hbefore. cbn [export_loop].
    unfold bindM at 1, export_object, bindM at 1. now rewrite Hsave. }
  destruct (save_index_pattern_of_log folder_path force obj w1 Hid)
    as [tail1 Htail1].
  pose proof (save_index_pattern_of_not_string folder_path force obj w1 Hid)
    as Hfail.
  destruct (save_index_pattern_of json_loads save_to_file makedirs find_by_id
              folder_path force obj w1) as [[[] | e] w2]; cbn [fst snd] in *.
  - split.
    + destruct (log_grows_export_loop folder_path force true after w2)
        as [tail2 Htail2].
      exists (tail1 ++ tail2)%list.
      rewrite Htail2, Htail1, <- app_assoc. reflexivity.
    + intros Hnot. destruct (Hfail Hnot) as [e He]. discriminate.
  - split.
    + now exists tail1.
    + intros _. now exists e.
Qed.

End OrchestratorFacts.

(** ** The sample, run *)

Module SampleRuns.

Import Sample.

Ltac run := vm_compute; reflexivity.

(** The helpers on a few inputs. *)
Example get_file_name_index_pattern :
  get_file_name INDEX_PATTERN "Git-Commits" = "index-pattern_git-commits.json".
Proof. reflexivity. Qed.

Example file_type_of_dashboard :
  file_type_of "exports/Dashboard_Git_Overview.json" = "dashboard".
Proof. reflexivity. Qed.

Example path_name_trailing_slash : path_name "kibana/searches/" = "searches".
Proof. reflexivity. Qed.

Example path_join_absolute : path_join "out" "/tmp/x.json" = "/tmp/x.json".
Proof. reflexivity. Qed.

Example loads_dumps_git_dashboard :
  loads (dumps git_dashboard) = Ok git_dashboard.
Proof. run. Qed.

Example find_index_pattern_commits_search :
  __find_index_pattern loads commits_search = Ok (JStr "idx1").
Proof. run. Qed.

Example find_index_pattern_plain_search :
  __find_index_pattern loads plain_search = Ok JNull.
Proof. run. Qed.

Example find_search_files_s1 :
  _find_search_files loads (load_json sample) (find_file sample) s1_path
    index_patterns = Ok [idx1_path; s1_path].
Proof. run. Qed.

Example find_dashboard_files_d1 :
  _find_dashboard_files loads (load_json sample) (find_file sample) d1_path
    visualizations searches index_patterns
  = Ok [s1_path; v1_path; idx1_path; v2_path; d1_path].
Proof. run. Qed.

(** Importing the search [s1] with its references: the index pattern
    first, then the search. *)
Example import_search_s1 :
  map (fun e => match e with
                | EvImportObjects objects _ => objects
                | _ => JNull
                end)
    (log (snd (import_from_file loads load_json find_file import_objects
                 s1_path true visualizations searches index_patterns true
                 start)))
  = [JObj [("objects", JArr [git_index])];
     JObj [("objects", JArr [commits_search])]].
Proof. run. Qed.


(** Why the name of the file matters: a dashboard kept as
    [visualization_d3.json], against the naming of the files, with the
    visualization [d3] as its only panel, resolves to its own path twice. *)
Lemma find_dashboard_files_duplicate :
  load_json sample d3_path = Ok misnamed_dashboard
  /\ dashboard_panels loads misnamed_dashboard
     = Ok [panel "visualization" "d3"]
  /\ _find_dashboard_files loads (load_json sample) (find_file sample) d3_path
       visualizations None None = Ok [d3_path; d3_path]
  /\ ~ NoDup [d3_path; d3_path].
Proof.
  repeat split; try run.
  intros H. inversion H as [ | ? ? Hin _]. apply Hin. now left.
Qed.

(** The visualization [v1] of the saved search [s1]: the search's file,
    then the visualization. *)
Lemma find_visualization_files_saved_search_witness :
  exists rest,
    _find_visualization_files loads (load_json sample) (find_file sample)
      v1_path searches index_patterns = Ok (s1_path :: rest)
    /\ s1_path :: rest = keep_first (s1_path :: [v1_path])
    /\ NoDup (s1_path :: rest)
    /\ (forall p, In p rest -> In p [v1_path]).
Proof.
  apply (@find_visualization_files_saved_search loads (load_json sample)
           (find_file sample) v1_path searches index_patterns commits_table
           (JObj [("title", JStr "commits table");
                  ("savedSearchId", JStr "s1");
                  search_source [("filter", JArr [])]])
           "s1" s1_path [v1_path]); run.
Defined.

(** C2, where the code departs from it: the search [s1] resolves to its
    index pattern and itself; the visualization [v1], whose [savedSearchId]
    is [s1], is resolved with both folders given, and its list holds the
    search's file but not the index pattern of the search. *)
Lemma find_visualization_files_without_search_dependencies :
  load_json sample v1_path = Ok commits_table
  /\ (attributes <- py_getitem commits_table "attributes" ;;
      py_getitem attributes "savedSearchId") = Ok (JStr "s1")
  /\ _find_search_files loads (load_json sample) (find_file sample) s1_path
       index_patterns = Ok [idx1_path; s1_path]
  /\ _find_visualization_files loads (load_json sample) (find_file sample)
       v1_path searches index_patterns = Ok [s1_path; v1_path]
  /\ ~ In idx1_path [s1_path; v1_path].
Proof.
  repeat split; try run.
  intros [H | [H | []]]; discriminate.
Qed.

(** C3, where the code departs from it: the search [s1] declares the index
    pattern [idx1]; with no index-patterns folder the call hands [None] to
    [find_file] and returns what comes of it, which is never the search
    alone, whatever [find_file] does; on the sample it is a [TypeError]. *)
Theorem find_search_files_without_folder :
  load_json sample s1_path = Ok commits_search
  /\ __find_index_pattern loads commits_search = Ok (JStr "idx1")
  /\ (forall lookup_file : option string -> string -> result string,
        _find_search_files loads (load_json sample) lookup_file s1_path None
        = (ip_path <- lookup_file None "index-pattern_idx1.json" ;;
           Ok [ip_path; s1_path])
        /\ _find_search_files loads (load_json sample) lookup_file s1_path
             None <> Ok [s1_path])
  /\ _find_search_files loads (load_json sample) (find_file sample) s1_path
       None = Err TypeError.
Proof.
  assert (load_json sample s1_path = Ok commits_search) as Hload by run.
  assert (__find_index_pattern loads commits_search = Ok (JStr "idx1"))
    as Hid by run.
  assert ("idx1" <> "") as Hne by discriminate.
  split; [exact Hload | ]. split; [exact Hid | ]. split; [ | run].
  intros lookup_file. split.
  - exact (@find_search_files_id loads (load_json sample) lookup_file s1_path
             None commits_search "idx1" Hload Hid Hne).
  - exact (@find_search_files_id_not_alone loads (load_json sample)
             lookup_file s1_path None commits_search "idx1" Hload Hid Hne).
Qed.

(** The dashboard [d2], whose second panel is a markdown panel. *)
Lemma find_dashboard_files_unsupported_panel_witness :
  (exists e,
     _find_dashboard_files loads (load_json sample) (find_file sample) d2_path
       visualizations searches index_patterns = Err e)
  /\ (Forall (fun p => exists resolved,
                panel_files loads (load_json sample) (find_file sample)
                  visualizations searches index_patterns p = Ok resolved)
        [panel "visualization" "v2"] ->
      _find_dashboard_files loads (load_json sample) (find_file sample) d2_path
        visualizations searches index_patterns
      = Err (ObjectTypeError (JStr "markdown"))).
Proof.
  apply (@find_dashboard_files_unsupported_panel loads (load_json sample)
           (find_file sample) d2_path visualizations searches index_patterns
           notes_dashboard [panel "visualization" "v2"] []
           (panel "markdown" "m1") (JStr "markdown")); run.
Defined.

(** C4 as stated fails: without a visualizations folder the same dashboard
    resolves to its own path, and no error is raised; and the dashboard
    [d4], whose first panel has no file, fails on that panel before it gets
    to the markdown panel. *)
Lemma find_dashboard_files_unsupported_panel_unseen :
  (load_json sample d2_path = Ok notes_dashboard
   /\ dashboard_panels loads notes_dashboard
      = Ok [panel "visualization" "v2"; panel "markdown" "m1"]
   /\ _find_dashboard_files loads (load_json sample) (find_file sample)
        d2_path None searches index_patterns = Ok [d2_path])
  /\ (load_json sample d4_path = Ok broken_dashboard
      /\ dashboard_panels loads broken_dashboard
         = Ok [panel "visualization" "gone"; panel "markdown" "m1"]
      /\ _find_dashboard_files loads (load_json sample) (find_file sample)
           d4_path visualizations searches index_patterns
         = Err (ExternalError "NotFoundError")).
Proof. repeat split; run. Qed.

(** The dashboard [D1] without a visualizations folder. *)
Lemma find_dashboard_files_no_visualizations_folder_witness :
  _find_dashboard_files loads (load_json sample) (find_file sample) d1_path
    None searches index_patterns = Ok [d1_path].
Proof.
  apply (@find_dashboard_files_no_visualizations_folder loads
           (load_json sample) (find_file sample) d1_path None searches
           index_patterns git_dashboard); run.
Defined.

(** An import of [notes_2024.json], whose name starts with no known type. *)
Lemma import_from_file_unknown_type_witness :
  import_from_file loads load_json find_file import_objects
    "kibana/notes_2024.json" true visualizations searches index_patterns
    false start
  = (Err (FileTypeError (file_type_of "kibana/notes_2024.json")), start)
  /\ exists token rest,
       path_name "kibana/notes_2024.json" = token ++ rest
       /\ (rest = "" \/ exists rest', rest = String "_" rest')
       /\ (forall n, get n token <> Some "_"%char)
       /\ file_type_of "kibana/notes_2024.json" = lower token.
Proof.
  apply (@import_from_file_unknown_type tree loads load_json find_file
           import_objects "kibana/notes_2024.json" visualizations searches
           index_patterns false start (JObj [("text", JStr "todo")]));
    try run; vm_compute; discriminate.
Defined.

(** An export with nothing to find the object by, and one by id. *)
Lemma export_fetches_first_witness :
  export loads save_to_file makedirs export_by_id export_by_title find_by_id
    "dashboard" "out" None (Some "") true false false blank
  = (Err ExportError, blank)
  /\ exists tail,
       log (snd (export loads save_to_file makedirs export_by_id
                   export_by_title find_by_id "dashboard" "out" (Some "D1")
                   None true false false blank))
       = (log blank ++ EvExportById "dashboard" "D1" :: tail)%list.
Proof.
  split.
  - apply (proj1 (@export_fetches_first tree loads save_to_file makedirs
                    export_by_id export_by_title find_by_id "dashboard" "out"
                    None (Some "") true false false blank)); run.
  - apply (proj1 (proj2 (@export_fetches_first tree loads save_to_file
                           makedirs export_by_id export_by_title find_by_id
                           "dashboard" "out" (Some "D1") None true false false
                           blank))). run.
Defined.

(** The bundle of the dashboard [D1], four objects, goes to one file. *)
Lemma export_one_file_writes_once_witness :
  py_getitem git_dashboard "type" = Ok (JStr "dashboard")
  /\ __export_objects loads save_to_file makedirs find_by_id git_bundle
       DASHBOARD "out" true false false blank
     = (fst (save_to_file git_bundle "out/dashboard_d1.json" false
               (state blank)),
        {| state := snd (save_to_file git_bundle "out/dashboard_d1.json"
                           false (state blank));
           log := log blank
                  ++ [EvSaveToFile git_bundle "out/dashboard_d1.json" false] |}).
Proof.
  apply (proj1 (@export_one_file_writes_once tree loads save_to_file makedirs
                  find_by_id git_bundle "out" false false blank)
           (JArr [commits_table; authors_pie; git_dashboard; commits_search])
           [commits_table; authors_pie; git_dashboard; commits_search]
           git_dashboard [] "D1"); run.
Defined.

(** The search [s2] declares no index pattern: exported with
    [index_pattern] set, it is written, and [find_by_id] is called with
    [None]. *)
Lemma export_looks_up_index_pattern_always_witness :
  (exists tail,
     log (snd (__export_objects loads save_to_file makedirs find_by_id
                 plain_search "search" "out" false false true blank))
     = (log (snd (save_object save_to_file makedirs "out" false plain_search
                    blank))
        ++ EvFindById INDEX_PATTERN JNull :: tail)%list)
  /\ ((forall s, JNull <> JStr s) ->
      exists e,
        fst (__export_objects loads save_to_file makedirs find_by_id
               plain_search "search" "out" false false true blank) = Err e).
Proof.
  apply (@export_looks_up_index_pattern_always tree loads save_to_file
           makedirs find_by_id plain_search "search" "out" false false false
           [] [] plain_search JNull blank blank
           (snd (save_object save_to_file makedirs "out" false plain_search
                   blank))); run.
Defined.

End SampleRuns.

(** * Further properties *)

(** ** Strings and paths *)

Lemma lower_ascii_idem (c : ascii) :
  lower_ascii (lower_ascii c) = lower_ascii c.
Proof.
  pose proof (lower_ascii_not_upper c) as H. cbv zeta in H.
  unfold lower_ascii at 1.
  destruct ((65 <=? nat_of_ascii (lower_ascii c))%nat
            && (nat_of_ascii (lower_ascii c) <=? 90)%nat) eqn:E;
    [ | reflexivity].
  apply andb_true_iff in E. destruct E as [Hlo Hhi].
  apply Nat.leb_le in Hlo. apply Nat.leb_le in Hhi. lia.
Qed.

Lemma lower_idem (s : string) : lower (lower s) = lower s.
Proof.
  induction s as [ | c s IH]; cbn [lower]; [reflexivity | ].
  now rewrite lower_ascii_idem, IH.
Qed.

(** Lower-casing leaves alone whatever is not a letter, and makes nothing
    but small letters. *)
Lemma lower_ascii_keeps (c d : ascii) :
  (nat_of_ascii d < 97 \/ 122 < nat_of_ascii d)%nat ->
  lower_ascii c = d -> c = d.
Proof.
  intros Hd. unfold lower_ascii.
  pose proof (nat_ascii_bounded c) as Hbound.
  destruct ((65 <=? nat_of_ascii c)%nat && (nat_of_ascii c <=? 90)%nat) eqn:E;
    [ | trivial].
  apply andb_true_iff in E. destruct E as [Hlo Hhi].
  apply Nat.leb_le in Hlo. apply Nat.leb_le in Hhi.
  intros <-. rewrite nat_ascii_embedding in Hd by lia. lia.
Qed.

Lemma free_of_nil (c : ascii) : free_of c "".
Proof. intros [ | n]; discriminate. Qed.

Lemma free_of_cons (c d : ascii) (s : string) :
  free_of c (String d s) <-> d <> c /\ free_of c s.
Proof.
  split.
  - intros H. split.
    + intros ->. now apply (H 0).
    + intros n. exact (H (S n)).
  - intros [Hd Hs] [ | n]; cbn [get].
    + intros E. injection E as E. now apply Hd.
    + apply Hs.
Qed.

Lemma free_of_app (c : ascii) (a b : string) :
  free_of c (a ++ b) <-> free_of c a /\ free_of c b.
Proof.
  induction a as [ | d a IH]; cbn [append].
  - split; [intros H; split; [apply free_of_nil | exact H] | now intros [_ H]].
  - rewrite !free_of_cons, IH. tauto.
Qed.

Lemma free_of_lower (c : ascii) (s : string) :
  (nat_of_ascii c < 97 \/ 122 < nat_of_ascii c)%nat ->
  free_of c s -> free_of c (lower s).
Proof.
  intros Hc. induction s as [ | d s IH]; cbn [lower]; [trivial | ].
  rewrite !free_of_cons. intros [Hd Hs]. split; [ | now apply IH].
  intros E. apply Hd. now apply lower_ascii_keeps.
Qed.

(** A string without the separator is one piece. *)
Lemma split_on_free (sep : ascii) (s : string) :
  free_of sep s -> split_on sep s = [s].
Proof.
  induction s as [ | c s IH]; cbn [split_on]; [reflexivity | ].
  rewrite free_of_cons. intros [Hc Hs].
  destruct (Ascii.eqb c sep) eqn:E.
  - apply Ascii.eqb_eq in E. contradiction.
  - now rewrite (IH Hs).
Qed.

(** The pieces of a string around one of its separators. *)
Lemma split_on_app (sep : ascii) (a b : string) :
  split_on sep (a ++ String sep b)
  = (split_on sep a ++ split_on sep b)%list.
Proof.
  induction a as [ | c a IH]; cbn [append split_on].
  - now rewrite Ascii.eqb_refl.
  - destruct (Ascii.eqb c sep); rewrite IH; [reflexivity | ].
    destruct (split_on_cons sep a) as [head [tail ->]]. reflexivity.
Qed.

Lemma append_String (a b : string) (c : ascii) :
  (a ++ String c "") ++ b = a ++ String c b.
Proof.
  induction a as [ | d a IH]; cbn [append]; [reflexivity | now rewrite IH].
Qed.

Lemma ends_with_slash_inv (a : string) :
  ends_with_slash a = true -> exists a', a = a' ++ "/".
Proof.
  induction a as [ | c a IH]; cbn [ends_with_slash]; [discriminate | ].
  destruct a as [ | d a].
  - intros E. apply Ascii.eqb_eq in E. subst c. now exists "".
  - intros E. destruct (IH E) as [a' ->]. now exists (String c a').
Qed.

(** The name of a file is what was joined to its folder. *)
Lemma path_name_join (folder name : string) :
  free_of "/" name -> name <> "" -> name <> "." ->
  path_name (path_join folder name) = name.
Proof.
  intros Hfree Hne Hdot.
  assert (negb (String.eqb name "") && negb (String.eqb name ".") = true)
    as Hkeep.
  { apply String.eqb_neq in Hne, Hdot. now rewrite Hne, Hdot. }
  assert (forall a, path_name (a ++ String "/" name) = name) as Hunder.
  { intros a. unfold path_name.
    rewrite split_on_app, (split_on_free Hfree), filter_app.
    cbn [filter]. rewrite Hkeep. apply last_last. }
  unfold path_join.
  destruct name as [ | c name]; [contradiction | ].
  assert (is_prefix "/" (String c name) = false) as ->.
  { cbn [is_prefix]. apply free_of_cons in Hfree. destruct Hfree as [Hc _].
    destruct (Ascii.eqb "/" c) eqn:E; [ | reflexivity].
    apply Ascii.eqb_eq in E. now subst c. }
  destruct (String.eqb folder "") eqn:Hfolder; cbn [orb].
  - apply String.eqb_eq in Hfolder. subst folder. cbn [append].
    unfold path_name. rewrite (split_on_free Hfree). cbn [filter].
    now rewrite Hkeep.
  - destruct (ends_with_slash folder) eqn:Hslash.
    + destruct (ends_with_slash_inv folder Hslash) as [a' ->].
      rewrite append_String. apply Hunder.
    + apply Hunder.
Qed.

Lemma not_free_of_app (sep : ascii) (a b : string) :
  ~ free_of sep (a ++ String sep b).
Proof.
  intros H. apply free_of_app in H. destruct H as [_ H].
  apply free_of_cons in H. now destruct H.
Qed.

Lemma length_append (a b : string) :
  String.length (a ++ b) = String.length a + String.length b.
Proof.
  induction a as [ | c a IH]; cbn [append String.length]; [reflexivity | ].
  now rewrite IH.
Qed.

Lemma append_inv_head (a x y : string) : a ++ x = a ++ y -> x = y.
Proof.
  induction a as [ | c a IH]; cbn [append]; [trivial | ].
  intros H. injection H as H. now apply IH.
Qed.

Lemma append_inv_tail (s x y : string) : x ++ s = y ++ s -> x = y.
Proof.
  revert y. induction x as [ | c x IH]; intros [ | d y]; cbn [append];
    intros H.
  - reflexivity.
  - apply (f_equal String.length) in H. cbn [String.length] in H.
    rewrite length_append in H. lia.
  - apply (f_equal String.length) in H. cbn [String.length] in H.
    rewrite length_append in H. lia.
  - injection H as -> H. now rewrite (IH y H).
Qed.

(** The name [get_file_name] builds, in its parts. *)
Lemma get_file_name_parts (obj_type obj_id : string) :
  get_file_name obj_type obj_id
  = lower obj_type ++ String "_" (lower obj_id ++ ".json").
Proof.
  unfold get_file_name, JSON_EXT. cbv zeta. now rewrite !lower_app.
Qed.

(** The type read from the name of a file that [get_file_name] named. *)
Lemma file_type_of_file_name (folder obj_type obj_id : string) :
  free_of "/" obj_type -> free_of "_" obj_type -> free_of "/" obj_id ->
  path_name (path_join folder (get_file_name obj_type obj_id))
    = get_file_name obj_type obj_id
  /\ file_type_of (path_join folder (get_file_name obj_type obj_id))
     = lower obj_type.
Proof.
  intros Htype Hunder Hid.
  assert (path_name (path_join folder (get_file_name obj_type obj_id))
          = get_file_name obj_type obj_id) as Hname.
  { apply path_name_join.
    - unfold get_file_name, JSON_EXT. cbv zeta.
      apply free_of_lower; [cbn; lia | ].
      repeat (apply free_of_app; split); try assumption;
        repeat (apply free_of_cons; split; [discriminate | ]);
        apply free_of_nil.
    - rewrite get_file_name_parts. intros E.
      apply (@not_free_of_app "_" (lower obj_type) (lower obj_id ++ ".json")).
      rewrite E. apply free_of_nil.
    - rewrite get_file_name_parts. intros E.
      apply (@not_free_of_app "_" (lower obj_type) (lower obj_id ++ ".json")).
      rewrite E. apply free_of_cons. split; [discriminate | apply free_of_nil]. }
  split; [exact Hname | ].
  unfold file_type_of. rewrite Hname, get_file_name_parts, split_on_app.
  rewrite split_on_free by (apply free_of_lower; [cbn; lia | assumption]).
  cbn [app hd]. apply lower_idem.
Qed.

Lemma is_ascii_app (a b : string) :
  is_ascii (a ++ b) = is_ascii a && is_ascii b.
Proof.
  induction a as [ | c a IH]; cbn [append is_ascii]; [reflexivity | ].
  now rewrite IH, andb_assoc.
Qed.

Section StrLower.

(** [str.lower] of Python, left open but for what it does on ASCII text. *)
Variable str_lower : string -> string.
Hypothesis str_lower_ascii :
  forall s, is_ascii s = true -> str_lower s = lower s.

(** On ASCII text the name is the one [get_file_name] builds. *)
Lemma get_file_name_in_ascii (obj_type obj_id : string) :
  is_ascii obj_type = true -> is_ascii obj_id = true ->
  get_file_name_in str_lower obj_type obj_id = get_file_name obj_type obj_id.
Proof.
  intros Htype Hid. unfold get_file_name_in, get_file_name. cbv zeta.
  apply str_lower_ascii. rewrite !is_ascii_app, Htype, Hid. reflexivity.
Qed.

(** C9: for any two strings [get_file_name] returns [str.lower] of the
    whole of [<type>_<id>.json].  When the type and the id are ASCII text
    that is the lower-cased type, an underscore, the lower-cased id and the
    extension, with no capital letter left anywhere.  In particular
    [get_file_name("Search", "ABC-1")] is ["search_abc-1.json"]. *)
Theorem get_file_name_lower_cased (obj_type obj_id : string) :
  get_file_name_in str_lower obj_type obj_id
  = str_lower (obj_type ++ "_" ++ obj_id ++ ".json")
  /\ (is_ascii obj_type = true -> is_ascii obj_id = true ->
      get_file_name_in str_lower obj_type obj_id
      = lower obj_type ++ "_" ++ lower obj_id ++ ".json"
      /\ forall n c,
           get n (get_file_name_in str_lower obj_type obj_id) = Some c ->
           (nat_of_ascii c < 65 \/ 90 < nat_of_ascii c)%nat)
  /\ get_file_name_in str_lower "Search" "ABC-1" = "search_abc-1.json".
Proof.
  split; [reflexivity | ]. split.
  - intros Htype Hid. rewrite (get_file_name_in_ascii _ _ Htype Hid). split.
    + apply get_file_name_parts.
    + intros n c. unfold get_file_name. cbv zeta. apply lower_no_upper.
  - now rewrite get_file_name_in_ascii.
Qed.

(** X1: for a type and two ids that are ASCII text, the two ids get the
    same file name exactly when they are the same up to the case of their
    letters. *)
Theorem get_file_name_same_iff (obj_type id1 id2 : string) :
  is_ascii obj_type = true -> is_ascii id1 = true -> is_ascii id2 = true ->
  get_file_name_in str_lower obj_type id1
  = get_file_name_in str_lower obj_type id2
  <-> lower id1 = lower id2.
Proof.
  intros Htype H1 H2.
  rewrite !get_file_name_in_ascii, !get_file_name_parts by assumption. split.
  - intros H. apply append_inv_head in H. injection H as H.
    now apply append_inv_tail in H.
  - now intros ->.
Qed.

End StrLower.

(** X2: the type that an import reads from the name of a file is the type
    the file was exported under: for each of the four types and any id
    without a slash, [file_type_of] on the path the object is written to
    gives the type back. *)
Theorem file_type_of_object_path (root_path obj_id : string) :
  free_of "/" obj_id ->
  file_type_of (object_path root_path DASHBOARD obj_id) = DASHBOARD
  /\ file_type_of (object_path root_path VISUALIZATION obj_id) = VISUALIZATION
  /\ file_type_of (object_path root_path SEARCH obj_id) = SEARCH
  /\ file_type_of (object_path root_path INDEX_PATTERN obj_id) = INDEX_PATTERN.
Proof.
  intros Hid.
  assert (forall obj_type,
            free_of "/" obj_type -> free_of "_" obj_type ->
            file_type_of (object_path root_path obj_type obj_id)
            = lower obj_type) as Hback.
  { intros obj_type H1 H2. unfold object_path.
    now apply file_type_of_file_name. }
  repeat split; rewrite Hback; try reflexivity;
    repeat (apply free_of_cons; split; [discriminate | ]); apply free_of_nil.
Qed.

(** ** More on the resolver *)

Lemma extend_new_In (new_files acc : list string) (p : string) :
  In p (extend_new acc new_files) -> In p acc \/ In p new_files.
Proof.
  revert acc. unfold extend_new.
  induction new_files as [ | q rest IH]; intros acc; cbn [fold_left].
  - now left.
  - intros H. apply IH in H. destruct H as [H | H]; [ | right; now right].
    unfold append_new in H. destruct (existsb (String.eqb q) acc).
    + now left.
    + apply in_app_or in H. destruct H as [H | [<- | []]].
      * now left.
      * right. now left.
Qed.

Lemma append_new_In (acc : list string) (p q : string) :
  In q (append_new acc p) <-> In q acc \/ q = p.
Proof.
  unfold append_new. destruct (existsb (String.eqb p) acc) eqn:E.
  - apply existsb_eqb_In in E. split; [now left | ].
    intros [H | ->]; assumption.
  - rewrite in_app_iff. cbn [In]. intuition congruence.
Qed.

Lemma append_new_NoDup (acc : list string) (p : string) :
  NoDup acc -> NoDup (append_new acc p).
Proof.
  intros H. unfold append_new.
  destruct (existsb (String.eqb p) acc) eqn:E; [exact H | ].
  apply NoDup_app; [exact H | repeat constructor; intros [] | ].
  intros q Hq [<- | []].
  apply (proj2 (existsb_eqb_In p acc)) in Hq. congruence.
Qed.

Lemma extend_new_NoDup (new_files acc : list string) :
  NoDup acc -> NoDup (extend_new acc new_files).
Proof.
  revert acc. unfold extend_new.
  induction new_files as [ | q rest IH]; intros acc H; cbn [fold_left].
  - exact H.
  - apply IH. now apply append_new_NoDup.
Qed.

Lemma extend_new_has (new_files acc : list string) (p : string) :
  In p acc \/ In p new_files -> In p (extend_new acc new_files).
Proof.
  revert acc. unfold extend_new.
  induction new_files as [ | q rest IH]; intros acc; cbn [fold_left].
  - intros [H | []]. exact H.
  - intros [H | [<- | H]]; apply IH.
    + left. apply append_new_In. now left.
    + left. apply append_new_In. now right.
    + now right.
Qed.

Section ResolverMore.

Variable json_loads : string -> result json.
Variable load_json : string -> result json.
Variable find_file : option string -> string -> result string.

(** The two shapes of what a search resolves to. *)
Lemma find_search_files_one_or_two (search_path : string)
    (index_patterns_folder : option string) (files : list string) :
  _find_search_files json_loads load_json find_file search_path
    index_patterns_folder = Ok files ->
  files = [search_path]
  \/ exists ip_path,
       files = [ip_path; search_path]
       /\ located find_file [index_patterns_folder] ip_path.
Proof.
  unfold _find_search_files.
  destruct (load_json search_path) as [content | ]; cbn [bind];
    [ | discriminate].
  destruct (__find_index_pattern json_loads content) as [id | ]; cbn [bind];
    [ | discriminate].
  destruct (truthy id); cbn [negb].
  - destruct (get_file_name_py (JStr INDEX_PATTERN) id) as [name | ];
      cbn [bind]; [ | discriminate].
    destruct (find_file index_patterns_folder name) as [ip_path | ] eqn:Hfind;
      cbn [bind]; [ | discriminate].
    intros H. injection H as <-. right. exists ip_path.
    split; [reflexivity | ].
    exists index_patterns_folder, name. split; [now left | exact Hfind].
  - intros H. injection H as <-. now left.
Qed.

(** X3: what [__find_index_pattern] gives for an object whose attributes
    are a mapping.  Without [kibanaSavedObjectMeta], or without
    [searchSourceJSON] in it, it is [None].  A [searchSourceJSON] that does
    not parse is an error, the one [json.loads] raises.  One that parses to
    a mapping gives the value under [index], whatever it is, or [None]
    without that key.  An object without [attributes] is a [KeyError]. *)
Theorem find_index_pattern_cases (obj : json) :
  (forall fields,
     obj = JObj fields -> lookup "attributes" fields = None ->
     __find_index_pattern json_loads obj = Err (KeyError "attributes"))
  /\ (forall attributes,
        py_getitem obj "attributes" = Ok (JObj attributes) ->
        lookup "kibanaSavedObjectMeta" attributes = None ->
        __find_index_pattern json_loads obj = Ok JNull)
  /\ (forall attributes meta,
        py_getitem obj "attributes" = Ok (JObj attributes) ->
        lookup "kibanaSavedObjectMeta" attributes = Some (JObj meta) ->
        (lookup "searchSourceJSON" meta = None ->
         __find_index_pattern json_loads obj = Ok JNull)
        /\ (forall text e,
              lookup "searchSourceJSON" meta = Some (JStr text) ->
              json_loads text = Err e ->
              __find_index_pattern json_loads obj = Err e)
        /\ (forall text source,
              lookup "searchSourceJSON" meta = Some (JStr text) ->
              json_loads text = Ok (JObj source) ->
              __find_index_pattern json_loads obj
              = Ok match lookup "index" source with
                   | Some id => id
                   | None => JNull
                   end)).
Proof.
  split; [ | split].
  - intros fields -> Hnone. unfold __find_index_pattern. cbn [py_getitem].
    now rewrite Hnone.
  - intros attributes Hattr Hmeta. unfold __find_index_pattern.
    rewrite Hattr. cbn [bind py_in]. now rewrite Hmeta.
  - intros attributes meta Hattr Hmeta.
    assert (__find_index_pattern json_loads obj
            = (has_source <- py_in "searchSourceJSON" (JObj meta) ;;
               if has_source then
                 source <- py_getitem (JObj meta) "searchSourceJSON" ;;
                 search_content <- json_loads_py json_loads source ;;
                 has_index <- py_in "index" search_content ;;
                 if negb has_index then Ok JNull
                 else py_getitem search_content "index"
               else Ok JNull)) as ->.
    { unfold __find_index_pattern. rewrite Hattr.
      cbn [bind py_in py_getitem]. now rewrite Hmeta. }
    cbn [py_in py_getitem]. repeat split.
    + now intros ->.
    + intros text e -> Hloads. cbn [bind json_loads_py]. now rewrite Hloads.
    + intros text source -> Hloads. cbn [bind json_loads_py]. rewrite Hloads.
      cbn [bind py_in py_getitem].
      now destruct (lookup "index" source).
Qed.

(** X4: whenever [_find_search_files] returns, the file was loaded and the
    list is either the search alone, its index-pattern id being [None] or
    otherwise falsy, or the path [find_file] gave for
    [index-pattern_<id>.json] followed by the search, the id being a
    non-empty string. *)
Theorem find_search_files_shape (search_path : string)
    (index_patterns_folder : option string) (files : list string) :
  _find_search_files json_loads load_json find_file search_path
    index_patterns_folder = Ok files ->
  exists content id,
    load_json search_path = Ok content
    /\ __find_index_pattern json_loads content = Ok id
    /\ ((truthy id = false /\ files = [search_path])
        \/ (exists name ip_path,
              id = JStr name /\ name <> ""
              /\ find_file index_patterns_folder
                   (get_file_name INDEX_PATTERN name) = Ok ip_path
              /\ files = [ip_path; search_path])).
Proof.
  unfold _find_search_files.
  destruct (load_json search_path) as [content | ] eqn:Hload; cbn [bind];
    [ | discriminate].
  destruct (__find_index_pattern json_loads content) as [id | ] eqn:Hid;
    cbn [bind]; [ | discriminate].
  intros H. exists content, id. split; [reflexivity | ].
  split; [exact Hid | ].
  destruct (truthy id) eqn:Htruthy; cbn [negb] in H.
  - right. destruct id as [ | | | name | | ]; cbn [get_file_name_py bind] in H;
      try discriminate.
    destruct (find_file index_patterns_folder
                (get_file_name INDEX_PATTERN name)) as [ip_path | ] eqn:Hfind;
      cbn [bind] in H; [ | discriminate].
    injection H as <-. exists name, ip_path. repeat split.
    + cbn [truthy] in Htruthy. intros ->. discriminate.
    + exact Hfind.
  - left. injection H as <-. now split.
Qed.

(** What [_find_visualization_files] computes, once its file is loaded:
    the saved search's path, if it is looked up, then the visualization's
    own list. *)
Lemma find_visualization_files_inv (visualization_path : string)
    (searches_folder index_patterns_folder : option string)
    (files : list string) :
  _find_visualization_files json_loads load_json find_file visualization_path
    searches_folder index_patterns_folder = Ok files ->
  exists first own,
    files = extend_new first own
    /\ _find_search_files json_loads load_json find_file visualization_path
         index_patterns_folder = Ok own
    /\ (first = []
        \/ exists search_path,
             first = [search_path]
             /\ located find_file [searches_folder] search_path).
Proof.
  unfold _find_visualization_files.
  destruct (load_json visualization_path) as [content | ]; cbn [bind];
    [ | discriminate].
  destruct (py_getitem content "attributes") as [attributes | ]; cbn [bind];
    [ | discriminate].
  destruct (py_in "savedSearchId" attributes) as [has_search | ]; cbn [bind];
    [ | discriminate].
  destruct (has_search && folder_given searches_folder).
  - destruct (py_getitem attributes "savedSearchId") as [search_id | ];
      cbn [bind]; [ | discriminate].
    destruct (get_file_name_py (JStr SEARCH) search_id) as [name | ];
      cbn [bind]; [ | discriminate].
    destruct (find_file searches_folder name) as [search_path | ] eqn:Hfind;
      cbn [bind]; [ | discriminate].
    destruct (_find_search_files json_loads load_json find_file
                visualization_path index_patterns_folder) as [own | ];
      cbn [bind]; [ | discriminate].
    intros H. injection H as <-. exists [search_path], own.
    repeat split. right. exists search_path. split; [reflexivity | ].
    exists searches_folder, name. split; [now left | exact Hfind].
  - cbn [bind].
    destruct (_find_search_files json_loads load_json find_file
                visualization_path index_patterns_folder) as [own | ];
      cbn [bind]; [ | discriminate].
    intros H. injection H as <-. exists [], own. repeat split. now left.
Qed.

(** X5: whenever [_find_visualization_files] returns, the list has no
    duplicate and holds the visualization's own path; that path is the last
    one, unless the searches folder holds the visualization's own file under
    the name of its saved search. *)
Theorem find_visualization_files_shape (visualization_path : string)
    (searches_folder index_patterns_folder : option string)
    (files : list string) :
  _find_visualization_files json_loads load_json find_file visualization_path
    searches_folder index_patterns_folder = Ok files ->
  NoDup files
  /\ In visualization_path files
  /\ ((forall name, find_file searches_folder name <> Ok visualization_path) ->
      exists deps, files = (deps ++ [visualization_path])%list).
Proof.
  intros H. apply find_visualization_files_inv in H.
  destruct H as [first [own [-> [Hown Hfirst]]]].
  apply find_search_files_one_or_two in Hown.
  split; [ | split].
  - apply extend_new_NoDup.
    destruct Hfirst as [-> | [search_path [-> _]]]; repeat constructor.
    intros [].
  - apply extend_new_has. right.
    destruct Hown as [-> | [ip_path [-> _]]]; cbn [In]; tauto.
  - intros Hnever.
    assert (first = [] \/ exists search_path,
              first = [search_path] /\ search_path <> visualization_path)
      as Hfirst'.
    { destruct Hfirst as [-> | [search_path [-> Hfound]]]; [now left | ].
      right. exists search_path. split; [reflexivity | ].
      destruct Hfound as [folder [name [[<- | []] Hfind]]].
      intros ->. exact (Hnever name Hfind). }
    clear Hfirst Hnever.
    destruct Hfirst' as [-> | [search_path [-> Hother]]];
      destruct Hown as [-> | [ip_path [-> _]]];
      unfold extend_new, append_new; cbn [fold_left existsb app orb].
    + now exists [].
    + destruct (String.eqb visualization_path ip_path) eqn:E.
      * apply String.eqb_eq in E. subst ip_path. now exists [].
      * now exists [ip_path].
    + destruct (String.eqb visualization_path search_path) eqn:E.
      * apply String.eqb_eq in E. congruence.
      * now exists [search_path].
    + destruct (String.eqb ip_path search_path) eqn:E1; cbn [existsb orb app].
      * destruct (String.eqb visualization_path search_path) eqn:E2.
        -- apply String.eqb_eq in E2. congruence.
        -- now exists [search_path].
      * destruct (String.eqb visualization_path search_path) eqn:E2.
        -- apply String.eqb_eq in E2. congruence.
        -- cbn [orb]. destruct (String.eqb visualization_path ip_path) eqn:E3.
           ++ apply String.eqb_eq in E3. subst ip_path.
              now exists [search_path].
           ++ now exists [search_path; ip_path].
Qed.

(** Every path in the list of a visualization is its own path or was
    located in one of the two folders. *)
Lemma find_visualization_files_located (visualization_path : string)
    (searches_folder index_patterns_folder : option string)
    (files : list string) (p : string) :
  _find_visualization_files json_loads load_json find_file visualization_path
    searches_folder index_patterns_folder = Ok files ->
  In p files ->
  p = visualization_path
  \/ located find_file [searches_folder; index_patterns_folder] p.
Proof.
  intros H Hp. apply find_visualization_files_inv in H.
  destruct H as [first [own [-> [Hown Hfirst]]]].
  apply find_search_files_one_or_two in Hown.
  apply extend_new_In in Hp. destruct Hp as [Hp | Hp].
  - destruct Hfirst as [-> | [search_path [-> Hfound]]]; [destruct Hp | ].
    destruct Hp as [<- | []]. right.
    destruct Hfound as [folder [name [[<- | []] Hfind]]].
    exists searches_folder, name. split; [now left | exact Hfind].
  - destruct Hown as [-> | [ip_path [-> Hfound]]].
    + destruct Hp as [<- | []]. now left.
    + destruct Hp as [<- | [<- | []]]; [ | now left]. right.
      destruct Hfound as [folder [name [[<- | []] Hfind]]].
      exists index_patterns_folder, name. split; [right; now left | exact Hfind].
Qed.

(** Every path a panel resolves to was located in one of the three
    folders. *)
Lemma panel_files_located (visualizations_folder searches_folder
    index_patterns_folder : option string) (panel : json)
    (resolved : list string) (p : string) :
  panel_files json_loads load_json find_file visualizations_folder
    searches_folder index_patterns_folder panel = Ok resolved ->
  In p resolved ->
  located find_file
    [visualizations_folder; searches_folder; index_patterns_folder] p.
Proof.
  unfold panel_files.
  destruct (py_getitem panel "type") as [panel_type | ]; cbn [bind];
    [ | discriminate].
  destruct (eq_str panel_type VISUALIZATION).
  - destruct (py_getitem panel "id") as [panel_id | ]; cbn [bind];
      [ | discriminate].
    destruct (get_file_name_py (JStr VISUALIZATION) panel_id) as [name | ];
      cbn [bind]; [ | discriminate].
    destruct (find_file visualizations_folder name) as [panel_path | ]
      eqn:Hfind; cbn [bind]; [ | discriminate].
    intros H Hp.
    destruct (@find_visualization_files_located _ _ _ _ _ H Hp)
      as [-> | [folder [name' [Hin Hfound]]]].
    + exists visualizations_folder, name. split; [now left | exact Hfind].
    + exists folder, name'. split; [now right | exact Hfound].
  - destruct (eq_str panel_type SEARCH); [ | discriminate].
    destruct (py_getitem panel "id") as [panel_id | ]; cbn [bind];
      [ | discriminate].
    destruct (get_file_name_py (JStr SEARCH) panel_id) as [name | ];
      cbn [bind]; [ | discriminate].
    destruct (find_file searches_folder name) as [panel_path | ]
      eqn:Hfind; cbn [bind]; [ | discriminate].
    intros H Hp. apply find_search_files_one_or_two in H.
    destruct H as [-> | [ip_path [-> [folder [name' [[<- | []] Hfound]]]]]].
    + destruct Hp as [<- | []].
      exists searches_folder, name. split; [right; now left | exact Hfind].
    + destruct Hp as [<- | [<- | []]].
      * exists index_patterns_folder, name'.
        split; [right; right; now left | exact Hfound].
      * exists searches_folder, name. split; [right; now left | exact Hfind].
Qed.

(** X6: whenever [_find_dashboard_files] returns, the list is the
    dashboard's path preceded by paths that [find_file] gave, each in one of
    the three folders: the resolver names no file that was not found. *)
Theorem find_dashboard_files_located (dashboard_path : string)
    (visualizations_folder searches_folder index_patterns_folder
     : option string) (files : list string) :
  _find_dashboard_files json_loads load_json find_file dashboard_path
    visualizations_folder searches_folder index_patterns_folder = Ok files ->
  exists deps,
    files = (deps ++ [dashboard_path])%list
    /\ forall p, In p deps ->
         located find_file
           [visualizations_folder; searches_folder; index_patterns_folder] p.
Proof.
  intros H.
  destruct (load_json dashboard_path) as [content | ] eqn:Hload.
  2: { unfold _find_dashboard_files in H. rewrite Hload in H. discriminate. }
  destruct (folder_given visualizations_folder) eqn:Hfolder.
  - destruct (@find_dashboard_files_returns json_loads load_json find_file
                dashboard_path visualizations_folder searches_folder
                index_patterns_folder content files Hload Hfolder H)
      as [panels [per_panel [_ [Hall ->]]]].
    exists (keep_first (concat per_panel)). split; [reflexivity | ].
    intros p Hp. apply keep_first_In, in_concat in Hp.
    destruct Hp as [resolved [Hresolved Hp]].
    clear H. induction Hall as [ | panel r panels per_panel Hpanel _ IH].
    + destruct Hresolved.
    + destruct Hresolved as [<- | Hresolved]; [ | now apply IH].
      exact (@panel_files_located _ _ _ _ _ _ Hpanel Hp).
  - unfold _find_dashboard_files in H. rewrite Hload in H. cbn [bind] in H.
    rewrite Hfolder in H. cbn [negb] in H. injection H as <-.
    exists []. split; [reflexivity | intros p []].
Qed.

(** X7: the panels of a dashboard are resolved in order and the first one
    that fails decides: when the panels before it resolve, its error is the
    error of the call, whatever comes after it. *)
Theorem find_dashboard_files_first_error (dashboard_path : string)
    (visualizations_folder searches_folder index_patterns_folder
     : option string) (content : json) (before after : list json)
    (panel : json) (e : error) :
  load_json dashboard_path = Ok content ->
  dashboard_panels json_loads content = Ok (before ++ panel :: after)%list ->
  folder_given visualizations_folder = true ->
  Forall (fun p => exists resolved,
            panel_files json_loads load_json find_file visualizations_folder
              searches_folder index_patterns_folder p = Ok resolved) before ->
  panel_files json_loads load_json find_file visualizations_folder
    searches_folder index_patterns_folder panel = Err e ->
  _find_dashboard_files json_loads load_json find_file dashboard_path
    visualizations_folder searches_folder index_patterns_folder = Err e.
Proof.
  intros Hload Hpanels Hfolder Hbefore Hpanel.
  unfold _find_dashboard_files.
  rewrite Hload. cbn [bind]. rewrite Hfolder. cbn [negb].
  rewrite Hpanels. cbn [bind].
  assert (forall acc,
            panels_loop json_loads load_json find_file visualizations_folder
              searches_folder index_patterns_folder
              (before ++ panel :: after) acc = Err e) as Hloop.
  { clear Hpanels.
    induction Hbefore as [ | p before [resolved Hp] _ IH]; intros acc;
      cbn [app panels_loop].
    - now rewrite Hpanel.
    - rewrite Hp. cbn [bind]. apply IH. }
  now rewrite Hloop.
Qed.

(** X8: without a searches folder the saved search of a visualization is
    not looked up: the visualization resolves to what
    [_find_search_files] returns for its own file, first occurrences kept,
    and fails when that call fails. *)
Theorem find_visualization_files_no_searches_folder
    (visualization_path : string)
    (searches_folder index_patterns_folder : option string)
    (content : json) (attributes : list (string * json)) :
  load_json visualization_path = Ok content ->
  py_getitem content "attributes" = Ok (JObj attributes) ->
  folder_given searches_folder = false ->
  _find_visualization_files json_loads load_json find_file visualization_path
    searches_folder index_patterns_folder
  = (own <- _find_search_files json_loads load_json find_file
              visualization_path index_patterns_folder ;;
     Ok (keep_first own)).
Proof.
  intros Hload Hattr Hfolder. unfold _find_visualization_files.
  rewrite Hload. cbn [bind]. rewrite Hattr. cbn [bind py_in].
  rewrite Hfolder, andb_false_r. cbn [bind].
  destruct (_find_search_files json_loads load_json find_file
              visualization_path index_patterns_folder) as [own | ];
    cbn [bind]; [ | reflexivity].
  now rewrite extend_new_nil.
Qed.

End ResolverMore.

(** ** The names of the files a dashboard resolves to *)



Section ResolverNames.

Variable json_loads : string -> result json.
Variable load_json : string -> result json.
Variable find_file : option string -> string -> result string.





End ResolverNames.

(** ** More on the orchestrator *)

Section OrchestratorMore.

Variable St : Type.
Variable json_loads : string -> result json.
Variable load_json : St -> string -> result json.
Variable find_file : St -> option string -> string -> result string.
Variable save_to_file : json -> string -> bool -> St -> result unit * St.
Variable makedirs : string -> St -> result unit * St.
Variable export_by_id : string -> string -> St -> result json * St.
Variable export_by_title : string -> string -> St -> result json * St.
Variable find_by_id : string -> json -> St -> result json * St.
Variable import_objects : json -> bool -> St -> result unit * St.

Lemma log_within_ret (P : event -> bool) (A : Type) (a : A) :
  log_within P (ret a : M St A).
Proof. intros w. exists []. now rewrite app_nil_r. Qed.

Lemma log_within_raise (P : event -> bool) (A : Type) (e : error) :
  log_within P (raise e : M St A).
Proof. intros w. exists []. now rewrite app_nil_r. Qed.

Lemma log_within_lift (P : event -> bool) (A : Type) (r : result A) :
  log_within P (lift r : M St A).
Proof. intros w. exists []. now rewrite app_nil_r. Qed.

Lemma log_within_reading (P : event -> bool) (A : Type) (f : St -> result A) :
  log_within P (reading f).
Proof. intros w. exists []. now rewrite app_nil_r. Qed.

Lemma log_within_call (P : event -> bool) (A : Type) (e : event)
    (op : St -> result A * St) :
  P e = true -> log_within P (call e op).
Proof.
  intros He w. exists [e]. unfold call. destruct (op (state w)).
  cbn [snd log forallb]. now rewrite He.
Qed.

Lemma log_within_bindM (P : event -> bool) (A B : Type) (m : M St A)
    (k : A -> M St B) :
  log_within P m -> (forall a, log_within P (k a)) ->
  log_within P (bindM m k).
Proof.
  intros Hm Hk w. unfold bindM.
  destruct (Hm w) as [tail1 [H1 P1]].
  destruct (m w) as [[a | e] w1]; cbn [snd] in *.
  - destruct (Hk a w1) as [tail2 [H2 P2]].
    exists (tail1 ++ tail2)%list. split.
    + now rewrite H2, H1, app_assoc.
    + now rewrite forallb_app, P1, P2.
  - now exists tail1.
Qed.

Lemma log_within_weaken (P Q : event -> bool) (A : Type) (m : M St A) :
  (forall e, P e = true -> Q e = true) -> log_within P m -> log_within Q m.
Proof.
  intros HPQ Hm w. destruct (Hm w) as [tail [H HP]].
  exists tail. split; [exact H | ].
  rewrite forallb_forall in *. auto.
Qed.

Ltac log_within :=
  repeat first
    [ apply log_within_ret | apply log_within_raise | apply log_within_lift
    | apply log_within_reading | apply log_within_call; reflexivity
    | apply log_within_bindM; [ | intro]
    | match goal with
      | |- log_within _ (if ?b then _ else _) => destruct b
      | |- log_within _ (match ?x with _ => _ end) => destruct x
      end ].

Lemma log_within_import_file (file_path : string) (force : bool) :
  log_within is_import (__import_file load_json import_objects file_path force).
Proof. unfold __import_file. log_within. Qed.

Lemma log_within_import_files (file_paths : list string) (force : bool) :
  log_within is_import
    (__import_files load_json import_objects file_paths force).
Proof.
  induction file_paths as [ | f rest IH]; cbn [__import_files].
  - apply log_within_ret.
  - apply log_within_bindM; [apply log_within_import_file | intros _; exact IH].
Qed.

(** X9: an import, with or without its references, does nothing to the
    world but call [import_objects]: it fetches nothing, looks nothing up
    and writes no file or folder. *)
Theorem import_from_file_only_imports (file_path : string) (find : bool)
    (visualizations_folder searches_folder index_patterns_folder
     : option string) (force : bool) :
  log_within is_import
    (import_from_file json_loads load_json find_file import_objects file_path
       find visualizations_folder searches_folder index_patterns_folder force).
Proof.
  unfold import_from_file.
  apply log_within_bindM; [apply log_within_reading | intros json_content].
  destruct (negb (truthy json_content)); [apply log_within_ret | ].
  destruct (negb find); [apply log_within_import_file | ].
  apply log_within_bindM; [ | intros files; apply log_within_import_files].
  log_within.
Qed.

Lemma import_files_app (before after : list string) (force : bool)
    (w : world St) :
  __import_files load_json import_objects (before ++ after) force w
  = match __import_files load_json import_objects before force w with
    | (Ok _, w1) => __import_files load_json import_objects after force w1
    | (Err e, w1) => (Err e, w1)
    end.
Proof.
  revert w. induction before as [ | f rest IH]; intros w;
    cbn [app __import_files].
  - reflexivity.
  - unfold bindM.
    destruct (__import_file load_json import_objects f force w)
      as [[[] | e] w1]; [apply IH | reflexivity].
Qed.

(** X10: a batch import stops at the first file that fails: the files
    before it stay imported, the error is that file's, and the world is the
    one that file left, whatever files come after. *)
Theorem import_files_stop (before after : list string) (f : string)
    (force : bool) (e : error) (w w1 w2 : world St) :
  __import_files load_json import_objects before force w = (Ok tt, w1) ->
  __import_file load_json import_objects f force w1 = (Err e, w2) ->
  __import_files load_json import_objects (before ++ f :: after) force w
  = (Err e, w2).
Proof.
  intros Hbefore Hfile. rewrite import_files_app, Hbefore.
  cbn [__import_files]. unfold bindM. now rewrite Hfile.
Qed.

(** X11: when importing into the remote store leaves the files as they
    read, a batch import that succeeds has loaded every file and called
    [import_objects] once for each file that is not empty, in the order of
    the list, with a bare object wrapped as [{'objects': [obj]}] and a
    document with an [objects] key passed as it is; empty files add
    nothing. *)
Theorem import_files_log (file_paths : list string) (force : bool) :
  (forall objects frc s path,
     load_json (snd (import_objects objects frc s)) path = load_json s path) ->
  forall (w w' : world St),
    __import_files load_json import_objects file_paths force w = (Ok tt, w') ->
    exists docs,
      Forall2 (fun f doc => load_json (state w) f = Ok doc) file_paths docs
      /\ log w' = (log w ++ flat_map (import_events force) docs)%list
      /\ Forall (fun doc =>
                   truthy doc = true -> exists b, py_in "objects" doc = Ok b)
           docs.
Proof.
  intros Hframe.
  induction file_paths as [ | f rest IH]; intros w w'; cbn [__import_files].
  - unfold ret. intros H. injection H as <-. exists [].
    cbn [flat_map]. rewrite app_nil_r. repeat split; constructor.
  - unfold bindM at 1, __import_file, bindM at 1, reading.
    destruct (load_json (state w) f) as [doc | ] eqn:Hload; [ | discriminate].
    destruct (truthy doc) eqn:Htruthy; cbn [negb].
    + unfold bindM at 1, lift.
      destruct (py_in "objects" doc) as [has | ] eqn:Hin; [ | discriminate].
      unfold call.
      destruct (import_objects (if negb has
                                then JObj [("objects", JArr [doc])]
                                else doc) force (state w))
        as [[[] | e] s1] eqn:Himport; [ | discriminate].
      intros H. apply IH in H. destruct H as [docs [Hdocs [Hlog Hin']]].
      exists (doc :: docs). cbn [state log] in *. repeat split.
      * constructor; [exact Hload | ].
        eapply Forall2_impl; [ | exact Hdocs].
        intros f' doc' Hf'. cbn beta in Hf'.
        replace s1 with (snd (import_objects
                                (if negb has
                                 then JObj [("objects", JArr [doc])]
                                 else doc) force (state w))) in Hf'
          by now rewrite Himport.
        now rewrite Hframe in Hf'.
      * rewrite Hlog. cbn [flat_map]. unfold import_events at 2, wrapped.
        rewrite Htruthy, Hin, <- app_assoc. now destruct has.
      * constructor; [ | exact Hin']. intros _. now exists has.
    + unfold ret. intros H. apply IH in H.
      destruct H as [docs [Hdocs [Hlog Hin']]].
      exists (doc :: docs). repeat split.
      * now constructor.
      * rewrite Hlog. cbn [flat_map]. unfold import_events at 2.
        now rewrite Htruthy.
      * constructor; [ | exact Hin']. congruence.
Qed.

(** X17: an import without its references looks at neither the name of
    the file nor the folders.  An empty file is left alone, whatever [find]
    is.  A file that is not empty is handed to [import_objects] once, a bare
    object wrapped as [{'objects': [obj]}] and a document with an [objects]
    key as it is, and the outcome of the call is the outcome of the
    import. *)
Theorem import_from_file_alone (file_path : string)
    (visualizations_folder searches_folder index_patterns_folder
     : option string) (force : bool) (w : world St) (content : json) :
  load_json (state w) file_path = Ok content ->
  (truthy content = false ->
   forall find,
     import_from_file json_loads load_json find_file import_objects file_path
       find visualizations_folder searches_folder index_patterns_folder force
       w = (Ok tt, w))
  /\ (truthy content = true ->
      forall has_objects,
        py_in "objects" content = Ok has_objects ->
        import_from_file json_loads load_json find_file import_objects
          file_path false visualizations_folder searches_folder
          index_patterns_folder force w
        = (fst (import_objects (wrapped content has_objects) force (state w)),
           {| state := snd (import_objects (wrapped content has_objects) force
                              (state w));
              log := log w
                     ++ [EvImportObjects (wrapped content has_objects) force] |})).
Proof.
  intros Hload. split.
  - intros Hempty find. unfold import_from_file, bindM, reading, ret.
    now rewrite Hload, Hempty.
  - intros Hfull has_objects Hin.
    unfold import_from_file, bindM at 1, reading. rewrite Hload, Hfull.
    cbn [negb]. unfold __import_file, bindM, reading, lift, call.
    rewrite Hload, Hfull, Hin. cbn [negb]. unfold wrapped.
    destruct has_objects; cbn [negb];
      match goal with
      | |- context [import_objects ?doc force (state w)] =>
          now destruct (import_objects doc force (state w))
      end.
Qed.

(** X12: importing with its references a file that an export named for an
    index pattern is refused: the type read from the name is
    [index-pattern], which is none of the three the import knows, so that a
    non-empty file ends in [FileTypeError] and nothing is imported. *)
Theorem import_index_pattern_file_refused (folder obj_id : string)
    (visualizations_folder searches_folder index_patterns_folder
     : option string) (force : bool) (w : world St) (content : json) :
  free_of "/" obj_id ->
  load_json (state w) (path_join folder (get_file_name INDEX_PATTERN obj_id))
    = Ok content ->
  truthy content = true ->
  import_from_file json_loads load_json find_file import_objects
    (path_join folder (get_file_name INDEX_PATTERN obj_id)) true
    visualizations_folder searches_folder index_patterns_folder force w
  = (Err (FileTypeError INDEX_PATTERN), w).
Proof.
  intros Hid Hload Htruthy.
  rewrite (@import_from_file_dispatch St json_loads load_json find_file
             import_objects _ visualizations_folder searches_folder
             index_patterns_folder force w content Hload Htruthy).
  assert (file_type_of (path_join folder (get_file_name INDEX_PATTERN obj_id))
          = INDEX_PATTERN) as ->; [ | reflexivity].
  apply (@file_type_of_file_name folder INDEX_PATTERN obj_id); try exact Hid;
    repeat (apply free_of_cons; split; [discriminate | ]); apply free_of_nil.
Qed.

Lemma log_within_export_loop (folder_path : string)
    (force index_pattern : bool) (objs : list json) :
  log_within (fun e => is_write e || index_pattern && is_lookup e)
    (export_loop json_loads save_to_file makedirs find_by_id folder_path force
       index_pattern objs).
Proof.
  induction objs as [ | obj rest IH]; cbn [export_loop].
  - apply log_within_ret.
  - apply log_within_bindM; [ | intros _; exact IH]. clear IH.
    unfold export_object, save_object, save_index_pattern_of, get_folder_path.
    destruct index_pattern; log_within.
Qed.

Lemma log_within_export_objects (data : json) (obj_type folder_path : string)
    (one_file force index_pattern : bool) :
  log_within (fun e => is_write e || index_pattern && is_lookup e)
    (__export_objects json_loads save_to_file makedirs find_by_id data
       obj_type folder_path one_file force index_pattern).
Proof.
  unfold __export_objects.
  destruct (one_file && String.eqb obj_type DASHBOARD).
  - log_within.
  - apply log_within_bindM; [apply log_within_lift | intros has_objects].
    apply log_within_bindM; [apply log_within_lift | intros objs].
    apply log_within_export_loop.
Qed.

(** X13: an export fetches once at most, and first: by id when an id is
    given, else by title when a title is given, else not at all.  What
    follows is made of folder creations, file writes and index-pattern
    lookups only, and of no lookup when [index_pattern] is false; an export
    never imports. *)
Theorem export_log_kinds (obj_type folder_path : string)
    (obj_id obj_title : option string) (one_file force index_pattern : bool)
    (w : world St) :
  exists rest,
    log (snd (export json_loads save_to_file makedirs export_by_id
                export_by_title find_by_id obj_type folder_path obj_id
                obj_title one_file force index_pattern w))
    = (log w
       ++ match given obj_id, given obj_title with
          | Some id, _ => [EvExportById obj_type id]
          | None, Some title => [EvExportByTitle obj_type title]
          | None, None => []
          end
       ++ rest)%list
    /\ forallb (fun e => is_write e || is_lookup e) rest = true
    /\ (index_pattern = false -> forallb is_write rest = true).
Proof.
  assert (forall (e : event) (op : St -> result json * St),
            exists rest,
              log (snd (bindM (call e op)
                          (fun obj =>
                             __export_objects json_loads save_to_file makedirs
                               find_by_id obj obj_type folder_path one_file
                               force index_pattern) w))
              = (log w ++ [e] ++ rest)%list
              /\ forallb (fun e => is_write e || is_lookup e) rest = true
              /\ (index_pattern = false -> forallb is_write rest = true))
    as Hfetch.
  { intros e op. unfold bindM, call.
    destruct (op (state w)) as [[obj | err] s]; cbn [snd log].
    - destruct (log_within_export_objects obj obj_type folder_path one_file
                  force index_pattern {| state := s; log := log w ++ [e] |})
        as [rest [Hlog Hkind]].
      exists rest. cbn [log] in Hlog. rewrite Hlog, <- app_assoc.
      split; [reflexivity | ].
      rewrite forallb_forall in Hkind. split.
      + apply forallb_forall. intros x Hx. specialize (Hkind x Hx).
        destruct (is_write x); [reflexivity | ].
        cbn [orb] in *. now destruct index_pattern.
      + intros ->. apply forallb_forall. intros x Hx. specialize (Hkind x Hx).
        now rewrite andb_false_l, orb_false_r in Hkind.
    - exists []. now rewrite app_nil_r. }
  unfold export.
  destruct (given obj_id) as [id | ]; [apply Hfetch | ].
  destruct (given obj_title) as [title | ]; [apply Hfetch | ].
  exists []. unfold bindM, raise. cbn [snd app]. now rewrite app_nil_r.
Qed.

(** What [get_folder_path] does for a type that is a string. *)
Lemma get_folder_path_run (root_path obj_type : string) (w : world St) :
  get_folder_path makedirs root_path (JStr obj_type) w
  = (match fst (makedirs (type_folder root_path obj_type) (state w)) with
     | Ok _ => Ok (type_folder root_path obj_type)
     | Err e => Err e
     end,
     {| state := snd (makedirs (type_folder root_path obj_type) (state w));
        log := log w ++ [EvMakeDirs (type_folder root_path obj_type)] |}).
Proof.
  unfold get_folder_path, type_folder, bindM, call, ret. cbn [eq_str].
  destruct (String.eqb obj_type VISUALIZATION);
    [ | destruct (String.eqb obj_type INDEX_PATTERN);
        [ | destruct (String.eqb obj_type SEARCH)]];
    cbn [negb String.eqb VISUALIZATIONS_FOLDER INDEX_PATTERNS_FOLDER
         SEARCHES_FOLDER Ascii.eqb Bool.eqb];
    match goal with
    | |- context [makedirs ?path ?st] =>
        destruct (makedirs path st) as [[[] | e] s]; reflexivity
    end.
Qed.

(** An object that was written has a type and an id that are strings, and
    its folder was made before the file was saved. *)
Lemma save_object_ok (folder_path : string) (force : bool) (obj : json)
    (w w' : world St) :
  save_object save_to_file makedirs folder_path force obj w = (Ok tt, w') ->
  exists obj_type obj_id,
    py_getitem obj "type" = Ok (JStr obj_type)
    /\ py_getitem obj "id" = Ok (JStr obj_id)
    /\ log w' = (log w
                 ++ write_events folder_path force (obj, (obj_type, obj_id)))%list.
Proof.
  unfold save_object, bindM at 1, lift.
  destruct (py_getitem obj "type") as [type_value | ]; [ | discriminate].
  destruct type_value as [ | | | obj_type | | ].
  all: try (unfold get_folder_path; unfold bindM, call, ret, lift;
            cbn [eq_str];
            match goal with
            | |- context [makedirs ?path ?st] =>
                destruct (makedirs path st) as [[[] | ?] ?]
            end;
            [destruct (py_getitem obj "id"); cbn [get_file_name_py] | ];
            discriminate).
  unfold bindM at 1. rewrite get_folder_path_run.
  destruct (makedirs (type_folder folder_path obj_type) (state w))
    as [[[] | e] s]; cbn [fst snd]; [ | discriminate].
  unfold bindM, lift, call.
  destruct (py_getitem obj "id") as [[ | | | obj_id | | ] | ];
    cbn [get_file_name_py]; try discriminate.
  cbn [state log].
  destruct (save_to_file obj _ force s) as [[[] | e] s']; [ | discriminate].
  intros H. injection H as <-. exists obj_type, obj_id.
  cbn [log write_events]. unfold object_path.
  now rewrite <- app_assoc.
Qed.

(** The loop without index patterns, when it succeeds. *)
Lemma export_loop_ok (folder_path : string) (force : bool) (objs : list json) :
  forall (w w' : world St),
    export_loop json_loads save_to_file makedirs find_by_id folder_path force
      false objs w = (Ok tt, w') ->
    exists ids,
      Forall2 (fun obj id =>
                 py_getitem obj "type" = Ok (JStr (fst id))
                 /\ py_getitem obj "id" = Ok (JStr (snd id))) objs ids
      /\ log w' = (log w
                   ++ flat_map (write_events folder_path force)
                        (combine objs ids))%list.
Proof.
  induction objs as [ | obj rest IH]; intros w w'; cbn [export_loop].
  - unfold ret. intros H. injection H as <-. exists [].
    cbn [combine flat_map]. rewrite app_nil_r. split; constructor.
  - unfold bindM at 1, export_object, bindM at 1.
    destruct (save_object save_to_file makedirs folder_path force obj w)
      as [[[] | e] w1] eqn:Hsave; [ | discriminate].
    unfold ret. intros H. apply IH in H. destruct H as [ids [Hids Hlog]].
    apply save_object_ok in Hsave.
    destruct Hsave as [obj_type [obj_id [Htype [Hid Hlog1]]]].
    exists ((obj_type, obj_id) :: ids). split.
    + constructor; [now split | exact Hids].
    + cbn [combine flat_map]. now rewrite Hlog, Hlog1, <- app_assoc.
Qed.

(** X14: a multi-file export without index patterns that succeeds has, for
    every object of the payload in order, made the folder of its type and
    then saved the object alone as [<type>_<id>.json] in it:
    [visualizations], [index-patterns] or [searches] under the destination,
    the destination itself for any other type, dashboards included.  A
    payload without an [objects] key counts as one object.  [one_file]
    makes no difference unless the type asked for is dashboard. *)
Theorem export_objects_layout (data : json) (obj_type folder_path : string)
    (one_file force : bool) (w w' : world St) :
  one_file && String.eqb obj_type DASHBOARD = false ->
  __export_objects json_loads save_to_file makedirs find_by_id data obj_type
    folder_path one_file force false w = (Ok tt, w') ->
  exists objs ids,
    ((py_in "objects" data = Ok false /\ objs = [data])
     \/ (exists objects,
           py_in "objects" data = Ok true
           /\ py_getitem data "objects" = Ok objects
           /\ py_iter objects = Ok objs))
    /\ Forall2 (fun obj id =>
                  py_getitem obj "type" = Ok (JStr (fst id))
                  /\ py_getitem obj "id" = Ok (JStr (snd id))) objs ids
    /\ log w' = (log w
                 ++ flat_map (write_events folder_path force)
                      (combine objs ids))%list.
Proof.
  intros Hmode. unfold __export_objects. rewrite Hmode.
  unfold bindM at 1, lift.
  destruct (py_in "objects" data) as [has_objects | ]; [ | discriminate].
  unfold bindM at 1.
  destruct has_objects; cbn [negb].
  - destruct (py_getitem data "objects") as [objects | ] eqn:Hobjects;
      cbn [bind]; [ | discriminate].
    destruct (py_iter objects) as [objs | ] eqn:Hiter; [ | discriminate].
    intros H. apply export_loop_ok in H. destruct H as [ids [Hids Hlog]].
    exists objs, ids. split; [ | now split].
    right. now exists objects.
  - intros H. apply export_loop_ok in H. destruct H as [ids [Hids Hlog]].
    exists [data], ids. split; [now left | now split].
Qed.

(** The world an object that was written leaves: the one [makedirs] and
    then [save_to_file] made. *)
Lemma save_object_run (folder_path : string) (force : bool) (obj : json)
    (w w' : world St) :
  save_object save_to_file makedirs folder_path force obj w = (Ok tt, w') ->
  exists obj_type obj_id,
    py_getitem obj "type" = Ok (JStr obj_type)
    /\ py_getitem obj "id" = Ok (JStr obj_id)
    /\ state w'
       = snd (save_to_file obj (object_path folder_path obj_type obj_id) force
                (snd (makedirs (type_folder folder_path obj_type) (state w))))
    /\ log w' = (log w
                 ++ write_events folder_path force (obj, (obj_type, obj_id)))%list.
Proof.
  unfold save_object, bindM at 1, lift.
  destruct (py_getitem obj "type") as [type_value | ]; [ | discriminate].
  destruct type_value as [ | | | obj_type | | ].
  all: try (unfold get_folder_path; unfold bindM, call, ret, lift;
            cbn [eq_str];
            match goal with
            | |- context [makedirs ?path ?st] =>
                destruct (makedirs path st) as [[[] | ?] ?]
            end;
            [destruct (py_getitem obj "id"); cbn [get_file_name_py] | ];
            discriminate).
  unfold bindM at 1. rewrite get_folder_path_run.
  destruct (makedirs (type_folder folder_path obj_type) (state w))
    as [[[] | e] s] eqn:Hmade; cbn [fst snd]; [ | discriminate].
  unfold bindM, lift, call.
  destruct (py_getitem obj "id") as [[ | | | obj_id | | ] | ];
    cbn [get_file_name_py]; try discriminate.
  cbn [state log]. fold (object_path folder_path obj_type obj_id).
  destruct (save_to_file obj (object_path folder_path obj_type obj_id) force s)
    as [[[] | e] s'] eqn:Hsaved; [ | discriminate].
  intros H. injection H as <-. exists obj_type, obj_id.
  cbn [state log write_events snd].
  split; [reflexivity | ]. split; [reflexivity | ]. split.
  - rewrite Hmade. cbn [snd]. now rewrite Hsaved.
  - now rewrite <- app_assoc.
Qed.

(** X15: a bare object exported with [index_pattern] set, when the export
    succeeds: the object is written to the folder of its type; then its
    index pattern, whose id is a string, is looked up with [find_by_id] in
    the world that write left; and the object that [find_by_id] returned is
    what is written as [index-pattern_<id>.json] under [index-patterns]. *)
Theorem export_object_with_index_pattern (obj : json)
    (obj_type folder_path : string) (one_file force : bool)
    (w w' : world St) :
  one_file && String.eqb obj_type DASHBOARD = false ->
  py_in "objects" obj = Ok false ->
  __export_objects json_loads save_to_file makedirs find_by_id obj obj_type
    folder_path one_file force true w = (Ok tt, w') ->
  exists own_type own_id pattern_id found,
    py_getitem obj "type" = Ok (JStr own_type)
    /\ py_getitem obj "id" = Ok (JStr own_id)
    /\ __find_index_pattern json_loads obj = Ok (JStr pattern_id)
    /\ fst (find_by_id INDEX_PATTERN (JStr pattern_id)
              (snd (save_to_file obj
                      (object_path folder_path own_type own_id) force
                      (snd (makedirs (type_folder folder_path own_type)
                              (state w))))))
       = Ok found
    /\ log w' = (log w
                 ++ write_events folder_path force (obj, (own_type, own_id))
                 ++ [EvFindById INDEX_PATTERN (JStr pattern_id)]
                 ++ write_events folder_path force
                      (found, (INDEX_PATTERN, pattern_id)))%list.
Proof.
  intros Hmode Hbare. unfold __export_objects. rewrite Hmode.
  unfold bindM at 1, lift. rewrite Hbare. unfold bindM at 1. cbn [negb].
  cbn [export_loop]. unfold bindM at 1, export_object, bindM at 1.
  destruct (save_object save_to_file makedirs folder_path force obj w)
    as [[[] | e] w1] eqn:Hsave; [ | discriminate].
  apply save_object_run in Hsave.
  destruct Hsave as [own_type [own_id [Htype [Hid [Hstate1 Hlog1]]]]].
  unfold save_index_pattern_of, bindM at 1, lift.
  destruct (__find_index_pattern json_loads obj) as [pattern | ];
    [ | discriminate].
  unfold bindM at 1, call at 1.
  destruct (find_by_id INDEX_PATTERN pattern (state w1)) as [[found | e] s2]
    eqn:Hfound; [ | discriminate].
  unfold bindM at 1. rewrite get_folder_path_run. cbn [state log].
  destruct (makedirs (type_folder folder_path INDEX_PATTERN) s2)
    as [[[] | e] s3]; cbn [fst snd]; [ | discriminate].
  unfold bindM at 1, lift.
  destruct pattern as [ | | | pattern_id | | ]; cbn [get_file_name_py];
    try discriminate.
  unfold call. cbn [state log].
  destruct (save_to_file found _ force s3) as [[[] | e] s4]; [ | discriminate].
  unfold ret. intros H. injection H as <-.
  exists own_type, own_id, pattern_id, found.
  split; [exact Htype | ]. split; [exact Hid | ]. split; [reflexivity | ].
  split.
  - rewrite <- Hstate1, Hfound. reflexivity.
  - cbn [log write_events app] in *. unfold object_path. rewrite Hlog1.
    cbn [write_events app]. now rewrite <- !app_assoc.
Qed.

(** A list without a dashboard gives the comprehension nothing. *)
Lemma dashboards_in_none (items : list json) :
  Forall (fun obj => exists obj_type,
            py_getitem obj "type" = Ok obj_type
            /\ eq_str obj_type "dashboard" = false) items ->
  dashboards_in items = Ok [].
Proof.
  induction 1 as [ | obj rest [obj_type [Htype Hnot]] _ IH];
    cbn [dashboards_in]; [reflexivity | ].
  rewrite Htype. cbn [bind]. rewrite IH. cbn [bind]. now rewrite Hnot.
Qed.

(** X16: a one-file export of a dashboard needs a payload that lists a
    dashboard.  A payload that is a bare object, without an [objects] key,
    ends in [KeyError]; a payload whose objects all have another type ends
    in [IndexError]; in both cases nothing is written. *)
Theorem export_one_file_without_dashboard (data : json)
    (folder_path : string) (force index_pattern : bool) (w : world St) :
  (forall fields,
     data = JObj fields -> lookup "objects" fields = None ->
     __export_objects json_loads save_to_file makedirs find_by_id data
       DASHBOARD folder_path true force index_pattern w
     = (Err (KeyError "objects"), w))
  /\ (forall objects items,
        py_getitem data "objects" = Ok objects ->
        py_iter objects = Ok items ->
        Forall (fun obj => exists obj_type,
                  py_getitem obj "type" = Ok obj_type
                  /\ eq_str obj_type "dashboard" = false) items ->
        __export_objects json_loads save_to_file makedirs find_by_id data
          DASHBOARD folder_path true force index_pattern w
        = (Err IndexError, w)).
Proof.
  split.
  - intros fields -> Hnone. unfold __export_objects.
    change (true && String.eqb DASHBOARD DASHBOARD) with true. cbv iota.
    unfold bindM, lift. cbn [py_getitem]. now rewrite Hnone.
  - intros objects items Hobjects Hitems Hnone. unfold __export_objects.
    change (true && String.eqb DASHBOARD DASHBOARD) with true. cbv iota.
    unfold bindM, lift.
    now rewrite Hobjects, Hitems, (dashboards_in_none Hnone).
Qed.

End OrchestratorMore.

(** ** More of the sample, run *)

Module MoreRuns.

Import Sample.

Ltac run := vm_compute; reflexivity.

Ltac no_char :=
  repeat (apply free_of_cons; split; [discriminate | ]); apply free_of_nil.



(** The file name of the search [ABC-1], with [lower] for [str.lower]. *)
Lemma get_file_name_lower_cased_witness :
  get_file_name_in lower "Search" "ABC-1"
  = lower ("Search" ++ "_" ++ "ABC-1" ++ ".json")
  /\ (get_file_name_in lower "Search" "ABC-1"
      = lower "Search" ++ "_" ++ lower "ABC-1" ++ ".json"
      /\ forall n c,
           get n (get_file_name_in lower "Search" "ABC-1") = Some c ->
           (nat_of_ascii c < 65 \/ 90 < nat_of_ascii c)%nat)
  /\ get_file_name_in lower "Search" "ABC-1" = "search_abc-1.json".
Proof.
  destruct (@get_file_name_lower_cased lower (fun _ _ => eq_refl) "Search" "ABC-1")
    as [Hwhole [Hparts Hexample]].
  split; [exact Hwhole | ]. split; [ | exact Hexample].
  apply Hparts; reflexivity.
Defined.

(** Two ids that differ by case only. *)
Lemma get_file_name_same_iff_witness :
  get_file_name_in lower SEARCH "ABC-1" = get_file_name_in lower SEARCH "abc-1".
Proof.
  apply (proj2 (@get_file_name_same_iff lower (fun _ _ => eq_refl) SEARCH "ABC-1"
                  "abc-1" eq_refl eq_refl eq_refl)). run.
Defined.

(** The files of the objects [D1], [v1], [s1] and [idx1] under [out]. *)
Lemma file_type_of_object_path_witness :
  file_type_of (object_path "out" DASHBOARD "D1") = DASHBOARD
  /\ file_type_of (object_path "out" VISUALIZATION "D1") = VISUALIZATION
  /\ file_type_of (object_path "out" SEARCH "D1") = SEARCH
  /\ file_type_of (object_path "out" INDEX_PATTERN "D1") = INDEX_PATTERN.
Proof.
  apply (@file_type_of_object_path "out" "D1"). no_char.
Defined.

(** The search [s1] names its index pattern; the search [s2] has no
    [kibanaSavedObjectMeta]. *)
Lemma find_index_pattern_cases_witness :
  __find_index_pattern loads commits_search = Ok (JStr "idx1")
  /\ __find_index_pattern loads plain_search = Ok JNull.
Proof.
  split.
  - assert (py_getitem commits_search "attributes"
            = Ok (JObj [("title", JStr "commits");
                        search_source [("index", JStr "idx1")]])) as Hattr
      by run.
    assert (lookup "kibanaSavedObjectMeta"
              [("title", JStr "commits");
               search_source [("index", JStr "idx1")]]
            = Some (JObj [("searchSourceJSON",
                           JStr (dumps (JObj [("index", JStr "idx1")])))]))
      as Hmeta by run.
    apply (proj2 (proj2 (proj2 (proj2 (find_index_pattern_cases loads
                                         commits_search))
                          _ _ Hattr Hmeta))
             (dumps (JObj [("index", JStr "idx1")])) [("index", JStr "idx1")]);
      run.
  - apply (proj1 (proj2 (find_index_pattern_cases loads plain_search))
             [("title", JStr "everything")]); run.
Defined.

(** The search [s1], resolved. *)
Lemma find_search_files_shape_witness :
  exists content id,
    load_json sample s1_path = Ok content
    /\ __find_index_pattern loads content = Ok id
    /\ ((truthy id = false /\ [idx1_path; s1_path] = [s1_path])
        \/ (exists name ip_path,
              id = JStr name /\ name <> ""
              /\ find_file sample index_patterns
                   (get_file_name INDEX_PATTERN name) = Ok ip_path
              /\ [idx1_path; s1_path] = [ip_path; s1_path])).
Proof.
  apply (@find_search_files_shape loads (load_json sample) (find_file sample)
           s1_path index_patterns [idx1_path; s1_path]). run.
Defined.

(** The visualization [v1], resolved. *)
Lemma find_visualization_files_shape_witness :
  NoDup [s1_path; v1_path]
  /\ In v1_path [s1_path; v1_path]
  /\ ((forall name, find_file sample searches name <> Ok v1_path) ->
      exists deps, [s1_path; v1_path] = (deps ++ [v1_path])%list).
Proof.
  apply (@find_visualization_files_shape loads (load_json sample)
           (find_file sample) v1_path searches index_patterns
           [s1_path; v1_path]). run.
Defined.

(** The dashboard [D1], resolved: every path but the last was found. *)
Lemma find_dashboard_files_located_witness :
  exists deps,
    [s1_path; v1_path; idx1_path; v2_path; d1_path] = (deps ++ [d1_path])%list
    /\ forall p, In p deps ->
         located (find_file sample) [visualizations; searches; index_patterns]
           p.
Proof.
  apply (@find_dashboard_files_located loads (load_json sample)
           (find_file sample) d1_path visualizations searches index_patterns
           [s1_path; v1_path; idx1_path; v2_path; d1_path]). run.
Defined.

(** The dashboard [d4]: its first panel has no file, and that is the error,
    not the type of the markdown panel after it. *)
Lemma find_dashboard_files_first_error_witness :
  _find_dashboard_files loads (load_json sample) (find_file sample) d4_path
    visualizations searches index_patterns
  = Err (ExternalError "NotFoundError").
Proof.
  apply (@find_dashboard_files_first_error loads (load_json sample)
           (find_file sample) d4_path visualizations searches index_patterns
           broken_dashboard [] [panel "markdown" "m1"]
           (panel "visualization" "gone") (ExternalError "NotFoundError"));
    try run.
  constructor.
Defined.

(** The visualization [v1] without a searches folder: its saved search is
    left out. *)
Lemma find_visualization_files_no_searches_folder_witness :
  _find_visualization_files loads (load_json sample) (find_file sample)
    v1_path None index_patterns
  = (own <- _find_search_files loads (load_json sample) (find_file sample)
              v1_path index_patterns ;;
     Ok (keep_first own)).
Proof.
  apply (@find_visualization_files_no_searches_folder loads
           (load_json sample) (find_file sample) v1_path None index_patterns
           commits_table
           [("title", JStr "commits table"); ("savedSearchId", JStr "s1");
            search_source [("filter", JArr [])]]); run.
Defined.

(** Importing into the sample store leaves the files alone. *)
Lemma import_objects_keeps_files (objects : json) (force : bool) (t : tree)
    (path : string) :
  load_json (snd (import_objects objects force t)) path = load_json t path.
Proof.
  unfold import_objects.
  destruct (items <- py_getitem objects "objects" ;; py_iter items)
    as [items | e]; [ | reflexivity].
  destruct (negb force
            && existsb (fun obj => existsb (same_object obj) (saved t)) items);
    reflexivity.
Qed.

(** A batch of three files without [force]: the notes are imported, the
    search [s2] is in the store already and fails, the dashboard is not
    reached. *)
Lemma import_files_stop_witness :
  __import_files load_json import_objects [notes_path; s2_path; d1_path]
    false start
  = (Err (ExternalError "ConflictError"),
     snd (__import_file load_json import_objects s2_path false
            (snd (__import_files load_json import_objects [notes_path] false
                    start)))).
Proof.
  apply (@import_files_stop tree load_json import_objects [notes_path]
           [d1_path] s2_path false (ExternalError "ConflictError") start
           (snd (__import_files load_json import_objects [notes_path] false
                   start))); run.
Defined.

(** The index pattern and the search, imported with [force]. *)
Lemma import_files_log_witness :
  exists docs,
    Forall2 (fun f doc => load_json (state start) f = Ok doc)
      [idx1_path; s1_path] docs
    /\ log (snd (__import_files load_json import_objects [idx1_path; s1_path]
                   true start))
       = (log start ++ flat_map (import_events true) docs)%list
    /\ Forall (fun doc =>
                 truthy doc = true -> exists b, py_in "objects" doc = Ok b)
         docs.
Proof.
  apply (@import_files_log tree load_json import_objects [idx1_path; s1_path]
           true import_objects_keeps_files start). run.
Defined.

(** The notes, whose name starts with no known type, imported alone, and
    an empty file. *)
Lemma import_from_file_alone_witness :
  import_from_file loads load_json find_file import_objects notes_path false
    None None None false start
  = (fst (import_objects
            (wrapped (JObj [("text", JStr "todo")]) false) false (state start)),
     {| state := snd (import_objects
                        (wrapped (JObj [("text", JStr "todo")]) false) false
                        (state start));
        log := log start
               ++ [EvImportObjects
                     (wrapped (JObj [("text", JStr "todo")]) false) false] |}).
Proof.
  apply (proj2 (@import_from_file_alone tree loads load_json find_file
                  import_objects notes_path None None None false start
                  (JObj [("text", JStr "todo")]) eq_refl)); run.
Defined.

(** The file of the index pattern [idx1], imported with its references. *)
Lemma import_index_pattern_file_refused_witness :
  import_from_file loads load_json find_file import_objects
    (path_join "kibana/index-patterns" (get_file_name INDEX_PATTERN "idx1"))
    true visualizations searches index_patterns true start
  = (Err (FileTypeError INDEX_PATTERN), start).
Proof.
  apply (@import_index_pattern_file_refused tree loads load_json find_file
           import_objects "kibana/index-patterns" "idx1" visualizations
           searches index_patterns true start git_index);
    [no_char | run | run].
Defined.

(** The dashboard [D1] exported by id, in one file. *)
Lemma export_log_kinds_witness :
  exists rest,
    log (snd (export loads save_to_file makedirs export_by_id export_by_title
                find_by_id "dashboard" "out" (Some "D1") (Some "Git") true
                false false blank))
    = (log blank ++ [EvExportById "dashboard" "D1"] ++ rest)%list
    /\ forallb (fun e => is_write e || is_lookup e) rest = true
    /\ (false = false -> forallb is_write rest = true).
Proof.
  exact (@export_log_kinds tree loads save_to_file makedirs export_by_id
           export_by_title find_by_id "dashboard" "out" (Some "D1")
           (Some "Git") true false false blank).
Defined.

(** The bundle of [D1] exported to several files: the dashboard lands in
    [out], the others in the folders of their types. *)
Lemma export_objects_layout_witness :
  exists objs ids,
    ((py_in "objects" git_bundle = Ok false /\ objs = [git_bundle])
     \/ (exists objects,
           py_in "objects" git_bundle = Ok true
           /\ py_getitem git_bundle "objects" = Ok objects
           /\ py_iter objects = Ok objs))
    /\ Forall2 (fun obj id =>
                  py_getitem obj "type" = Ok (JStr (fst id))
                  /\ py_getitem obj "id" = Ok (JStr (snd id))) objs ids
    /\ log (snd (__export_objects loads save_to_file makedirs find_by_id
                   git_bundle "dashboard" "out" false false false blank))
       = (log blank
          ++ flat_map (write_events "out" false) (combine objs ids))%list.
Proof.
  apply (@export_objects_layout tree loads save_to_file makedirs find_by_id
           git_bundle "dashboard" "out" false false blank
           (snd (__export_objects loads save_to_file makedirs find_by_id
                   git_bundle "dashboard" "out" false false false blank)));
    run.
Defined.

(** The visualization [v2] exported with its index pattern. *)
Lemma export_object_with_index_pattern_witness :
  exists own_type own_id pattern_id found,
    py_getitem authors_pie "type" = Ok (JStr own_type)
    /\ py_getitem authors_pie "id" = Ok (JStr own_id)
    /\ __find_index_pattern loads authors_pie = Ok (JStr pattern_id)
    /\ fst (find_by_id INDEX_PATTERN (JStr pattern_id)
              (snd (save_to_file authors_pie
                      (object_path "out" own_type own_id) false
                      (snd (makedirs (type_folder "out" own_type)
                              (state blank))))))
       = Ok found
    /\ log (snd (__export_objects loads save_to_file makedirs find_by_id
                   authors_pie "visualization" "out" true false true blank))
       = (log blank
          ++ write_events "out" false (authors_pie, (own_type, own_id))
          ++ [EvFindById INDEX_PATTERN (JStr pattern_id)]
          ++ write_events "out" false (found, (INDEX_PATTERN, pattern_id)))%list.
Proof.
  apply (@export_object_with_index_pattern tree loads save_to_file makedirs
           find_by_id authors_pie "visualization" "out" true false blank
           (snd (__export_objects loads save_to_file makedirs find_by_id
                   authors_pie "visualization" "out" true false true blank)));
    run.
Defined.

(** One-file exports of a bare visualization and of a bundle without a
    dashboard. *)
Lemma export_one_file_without_dashboard_witness :
  __export_objects loads save_to_file makedirs find_by_id authors_pie
    DASHBOARD "out" true false false blank
  = (Err (KeyError "objects"), blank)
  /\ __export_objects loads save_to_file makedirs find_by_id loose_bundle
       DASHBOARD "out" true false false blank
     = (Err IndexError, blank).
Proof.
  split.
  - apply (proj1 (@export_one_file_without_dashboard tree loads save_to_file
                    makedirs find_by_id authors_pie "out" false false blank)
             [("type", JStr "visualization"); ("id", JStr "v2");
              ("attributes",
               JObj [("title", JStr "authors");
                     search_source [("index", JStr "idx1")]])]); run.
  - apply (proj2 (@export_one_file_without_dashboard tree loads save_to_file
                    makedirs find_by_id loose_bundle "out" false false blank)
             (JArr [authors_pie; commits_search])
             [authors_pie; commits_search]); try run.
    repeat constructor.
    + exists (JStr "visualization"). split; run.
    + exists (JStr "search"). split; run.
Defined.

End MoreRuns.
